(** * zk-profiler: the profiling engine of [tools/zk-profiler/profiler.ts]

    A shallow embedding of the engine ([resolveCircuitArtifacts],
    [sizeIfExists], [estimatePublicInputs], [extractConstraintCount],
    [predictComputeUnits], [estimatePriorityFees], [estimateRent],
    [profileCircuit]) and the properties of its report.

    Conventions of the embedding.
    - A JavaScript number that the engine uses as a count or a byte size is
      an integer of [Z]; the arithmetic on them ([+], [*], [Math.floor] of a
      quotient) is exact below 2^53, which every file size is.  [NaN] is
      kept, because the constraint count comes out of a parsed document and
      is not checked to be a number.  Beyond 2^53 the runtime rounds:
      [predictComputeUnits_binary64] is the prediction as it computes it,
      and the statements that need exact values carry [safe_prediction].
    - Fees and rent are binary64 values ([float]), computed with the
      primitive IEEE operations.
    - [throw] and [try]/[catch] are the error monad [sum Error].
    - The file system is an explicit, read-only argument. *)

From Stdlib Require Import ZArith List String Lia Permutation.
From Stdlib Require Import DecimalString Floats.
From ExtLib Require Import Structures.Monad Structures.MonadExc.
From ExtLib Require Import Data.Monads.EitherMonad.
Import ListNotations.
Import MonadNotation.
Local Open Scope monad_scope.
Local Open Scope string_scope.
Local Open Scope Z_scope.

Set Warnings "-inexact-float".

(** ** JavaScript values *)

Module JS.

(** The numbers the engine computes with: an integer, or [NaN]. *)
Inductive number : Type :=
| Num (z : Z)
| NaN.

Definition add (a b : number) : number :=
  match a, b with
  | Num x, Num y => Num (x + y)
  | _, _ => NaN
  end.

Definition mul (a b : number) : number :=
  match a, b with
  | Num x, Num y => Num (x * y)
  | _, _ => NaN
  end.

(** [Math.floor(a / b)] for a non-zero integer divisor [b]. *)
Definition floor_div (a : number) (b : Z) : number :=
  match a with
  | Num x => Num (x / b)
  | NaN => NaN
  end.

(** [a > b]: false as soon as one side is [NaN]. *)
Definition gtb (a b : number) : bool :=
  match a, b with
  | Num x, Num y => x >? y
  | _, _ => false
  end.

(** What [JSON.parse] returns.  Numeric literals are integers, a string is
    the sequence of its code units, and an object keeps its members in
    document order. *)
Inductive JSON : Type :=
| JNull
| JBool (b : bool)
| JNum (z : Z)
| JStr (s : string)
| JArr (items : list JSON)
| JObj (members : list (string * JSON)).

(** The value of [v[key]] for a value that is neither [null] nor
    [undefined]; [None] is [undefined].  A parsed object has its own
    members only (a repeated key keeps its last value); strings and
    arrays have [length]; numbers and booleans have no own property. *)
Definition own_member (key : string) (members : list (string * JSON))
  : option JSON :=
  match find (fun kv => String.eqb (fst kv) key) (rev members) with
  | Some kv => Some (snd kv)
  | None => None
  end.

Definition get (v : JSON) (key : string) : option JSON :=
  match v with
  | JObj members => own_member key members
  | JStr s =>
      if String.eqb key "length" then Some (JNum (Z.of_nat (String.length s)))
      else None
  | JArr items =>
      if String.eqb key "length" then Some (JNum (Z.of_nat (List.length items)))
      else None
  | _ => None
  end.

(** [s.endsWith(suffix)] *)
Definition endsWith (s suffix : string) : bool :=
  let n := String.length s in
  let m := String.length suffix in
  if (m <=? n)%nat then String.eqb (substring (n - m) m s) suffix else false.

(** [s.replace(pattern, replacement)] with a string pattern: the first
    occurrence only. *)
Definition replace (s pattern replacement : string) : string :=
  match index 0 pattern s with
  | Some i =>
      let after := (i + String.length pattern)%nat in
      substring 0 i s ++ replacement
        ++ substring after (String.length s - after) s
  | None => s
  end.

(** The decimal text of an integer, as a template literal prints it. *)
Definition string_of_Z (z : Z) : string :=
  NilZero.string_of_int (Z.to_int z).

Definition string_of_number (a : number) : string :=
  match a with
  | Num z => string_of_Z z
  | NaN => "NaN"
  end.

(** The binary64 value nearest to an integer. *)
Definition float_of_Z (z : Z) : float :=
  SF2Prim (binary_normalize 53 1024 z 0 false).

Definition float_of_number (a : number) : float :=
  match a with
  | Num z => float_of_Z z
  | NaN => nan
  end.

(** [Number(x.toFixed(digits))].  [toFixed] takes the integer [n] with
    [n / 10^digits] nearest to the exact value of [|x|], the larger one on
    a tie, and prints it with the sign of [x]; [Number] reads the text back
    as the nearest binary64 value, which is the correctly rounded quotient
    of [n] by [10^digits]. *)
Definition toFixed (digits : Z) (x : float) : float :=
  match Prim2SF x with
  | S754_finite s m e =>
      let scaled := Z.pos m * 10 ^ digits in
      let n := if 0 <=? e then scaled * 2 ^ e
               else (2 * scaled + 2 ^ (- e)) / 2 ^ (1 - e) in
      let r := (float_of_Z n / float_of_Z (10 ^ digits))%float in
      if s then (- r)%float else r
  | S754_zero _ => 0%float
  | _ => x
  end.

End JS.

Import JS.

(** ** The file system and the errors of a run *)

(** A path names a regular file, a directory, or nothing.  Of a regular file
    the engine reads the byte size ([statSync(p).size], which is also
    [readFileSync(p).length]) and what [JSON.parse] makes of its text:
    [parsed] is [None] when [JSON.parse] throws.  Of a directory it reads the
    size and the entry names, in the order [readdirSync] lists them. *)
Inductive Node : Type :=
| File (size : N) (parsed : option JSON)
| Directory (size : N) (entries : list string).

Definition FS : Type := string -> option Node.

Inductive Error : Type :=
| MissingTarget (circuitRoot : string)
| NoProofFile
| ENOENT (path : string)
| ENOTDIR (path : string)
| EISDIR (path : string)
| SyntaxError
| TypeError.

(** The message of an error: the text the engine gives to the two it throws
    itself, the code of those that come from the runtime. *)
Definition message (e : Error) : string :=
  match e with
  | MissingTarget circuitRoot => "Missing target/ directory in " ++ circuitRoot
  | NoProofFile => "No .proof file found. Did you run `sunspot prove`?"
  | ENOENT _ => "ENOENT"
  | ENOTDIR _ => "ENOTDIR"
  | EISDIR _ => "EISDIR"
  | SyntaxError => "SyntaxError"
  | TypeError => "TypeError"
  end.

Definition M : Type -> Type := sum Error.

Definition existsSync (fs : FS) (p : string) : bool :=
  match fs p with
  | Some _ => true
  | None => false
  end.

(** [fs.statSync(p).size] *)
Definition statSync_size (fs : FS) (p : string) : M Z :=
  match fs p with
  | Some (File size _) => ret (Z.of_N size)
  | Some (Directory size _) => ret (Z.of_N size)
  | None => raise (ENOENT p)
  end.

Definition readdirSync (fs : FS) (p : string) : M (list string) :=
  match fs p with
  | Some (Directory _ entries) => ret entries
  | Some (File _ _) => raise (ENOTDIR p)
  | None => raise (ENOENT p)
  end.

(** [fs.readFileSync(p).length] *)
Definition readFileSync_length (fs : FS) (p : string) : M Z :=
  match fs p with
  | Some (File size _) => ret (Z.of_N size)
  | Some (Directory _ _) => raise (EISDIR p)
  | None => raise (ENOENT p)
  end.

(** [JSON.parse(fs.readFileSync(p, "utf8"))] *)
Definition JSON_parse_file (fs : FS) (p : string) : M JSON :=
  match fs p with
  | Some (File _ (Some v)) => ret v
  | Some (File _ None) => raise SyntaxError
  | Some (Directory _ _) => raise (EISDIR p)
  | None => raise (ENOENT p)
  end.

(** [path.join(a, b)] for a normalized [a] and a single segment [b]. *)
Definition path_join (a b : string) : string := a ++ "/" ++ b.

(** ** Limits and constants *)

Definition SOLANA_TX_MAX_BYTES : Z := 1232.
Definition SAFE_INSTRUCTION_DATA_LIMIT : Z := 900.
Definition SAFE_INSTRUCTION_DATA_LIMIT_ALT : Z := 750.
Definition FIELD_ELEMENT_BYTES : Z := 32.

Definition RENT_SOL_PER_KB : float := 0.007%float.
Definition MICRO_LAMPORTS_PER_LAMPORT : float := 1000000%float.
Definition LAMPORTS_PER_SOL : float := 1000000000%float.

Definition BASE_VERIFY_CU : Z := 150000.
Definition CU_PER_PUBLIC_INPUT : Z := 12000.
Definition CU_PER_10K_CONSTRAINTS : Z := 20000.

(** ** Types *)

Inductive Status : Type := PASS | WARN | FAIL.

Record ProfileResult : Type := {
  circuitName : string;
  proofBytes : Z;
  publicWitnessBytes : Z;
  instructionDataBytes : Z;
  effectiveInstructionLimit : Z;
  publicInputCount : option Z;
  constraintCount : option JSON;
  totalCU : number;
  priorityFees : list (string * float);
  vkRentEstimateSOL : option float;
  witnessBytes : option Z;
  acirBytes : option Z;
  fitsInSolanaTx : bool;
  status : Status;
  warnings : list string
}.

(** The object [resolveCircuitArtifacts] returns. *)
Module Artifacts.
Record t : Type := {
  circuitName : string;
  targetDir : string;
  proofPath : string;
  pwPath : string;
  witnessPath : string;
  acirPath : string;
  vkPath : string
}.
End Artifacts.

(** [opts?: { usesALT?: boolean }] *)
Record Options : Type := { usesALT : option bool }.

(** ** Path resolution *)

Definition resolveCircuitArtifacts (fs : FS) (circuitRoot : string)
  : M Artifacts.t :=
  let targetDir := path_join circuitRoot "target" in
  if negb (existsSync fs targetDir) then raise (MissingTarget circuitRoot)
  else
    files <- readdirSync fs targetDir ;;
    match find (fun f => endsWith f ".proof") files with
    | None => raise NoProofFile
    | Some proofFile =>
        let circuitName := replace proofFile ".proof" "" in
        ret {| Artifacts.circuitName := circuitName;
               Artifacts.targetDir := targetDir;
               Artifacts.proofPath := path_join targetDir (circuitName ++ ".proof");
               Artifacts.pwPath := path_join targetDir (circuitName ++ ".pw");
               Artifacts.witnessPath := path_join targetDir (circuitName ++ ".gz");
               Artifacts.acirPath := path_join targetDir (circuitName ++ ".json");
               Artifacts.vkPath := path_join targetDir (circuitName ++ ".vk") |}
    end.

(** ** Helpers *)

Definition sizeIfExists (fs : FS) (filePath : string) : M (option Z) :=
  if negb (existsSync fs filePath) then ret None
  else size <- statSync_size fs filePath ;; ret (Some size).

Definition estimatePublicInputs (fs : FS) (pwPath : string) : M (option Z) :=
  if negb (existsSync fs pwPath) then ret None
  else
    bytes <- readFileSync_length fs pwPath ;;
    ret (Some (bytes / FIELD_ELEMENT_BYTES)).

(** ** ACIR analysis *)

(** [v.key]: a [TypeError] on [null]. *)
Definition member (v : JSON) (key : string) : M (option JSON) :=
  match v with
  | JNull => raise TypeError
  | _ => ret (get v key)
  end.

(** [x?.length ?? undefined]: [undefined] when [x] is [undefined] or [null],
    and when its [length] is. *)
Definition length_or_undefined (x : option JSON) : option JSON :=
  match x with
  | None | Some JNull => None
  | Some c =>
      match get c "length" with
      | None | Some JNull => None
      | Some n => Some n
      end
  end.

Definition extractConstraintCount (fs : FS) (acirPath : string)
  : M (option JSON) :=
  if negb (existsSync fs acirPath) then ret None
  else
    catch
      (acir <- JSON_parse_file fs acirPath ;;
       constraints <- member acir "constraints" ;;
       ret (length_or_undefined constraints))
      (fun _ => ret None).

(** ** Compute Unit prediction *)

(** A parameter with a default takes it when the argument is [undefined]. *)
Definition or_default (d : number) (x : option number) : number :=
  match x with
  | Some v => v
  | None => d
  end.

Definition predictComputeUnits (publicInputs constraintCount : option number)
  : number :=
  let publicInputs := or_default (Num 0) publicInputs in
  let constraintCount := or_default (Num 0) constraintCount in
  let constraintCU :=
    mul (floor_div constraintCount 10000) (Num CU_PER_10K_CONSTRAINTS) in
  let totalCU :=
    add (add (Num BASE_VERIFY_CU) (mul publicInputs (Num CU_PER_PUBLIC_INPUT)))
        constraintCU in
  totalCU.

(** ** Priority fee estimation *)

Definition fee_table : list (string * float) :=
  [("low", 200%float); ("medium", 800%float); ("high", 2500%float)].

Definition estimatePriorityFees (totalCU : number) : list (string * float) :=
  map (fun entry =>
         let '(level, microLamportsPerCU) := entry in
         let microLamports := (float_of_number totalCU * microLamportsPerCU)%float in
         let lamports := (microLamports / MICRO_LAMPORTS_PER_LAMPORT)%float in
         (level, toFixed 6 (lamports / LAMPORTS_PER_SOL)%float))
      fee_table.

(** ** Rent estimation *)

(** [!bytes] holds for [undefined] and for [0]. *)
Definition estimateRent (bytes : option Z) : option float :=
  match bytes with
  | None => None
  | Some 0 => None
  | Some b => Some (toFixed 4 (float_of_Z b / 1024 * RENT_SOL_PER_KB)%float)
  end.

(** ** Core profiler *)

Section Profiler.

(** [predictComputeUnits] divides the constraint count it is given, and the
    division coerces it to a number.  On a number the coercion is the
    identity and on a boolean it is 0 or 1.  The [length] member of a parsed
    object can also be a string, an array or an object: what the language
    makes of those is a parameter of the development, and every property
    below holds whatever it is. *)
Variable ToNumber_other : JSON -> number.

Definition ToNumber (v : JSON) : number :=
  match v with
  | JNum z => Num z
  | JBool true => Num 1
  | JBool false => Num 0
  | JNull => Num 0
  | _ => ToNumber_other v
  end.

(** [opts?.usesALT ?? false] *)
Definition usesALT_or_false (opts : option Options) : bool :=
  match opts with
  | Some {| usesALT := Some b |} => b
  | _ => false
  end.

(** [publicInputCount && publicInputCount > 8]: [undefined] and [0] are
    falsy. *)
Definition high_public_inputs (publicInputCount : option Z) : bool :=
  match publicInputCount with
  | None => false
  | Some 0 => false
  | Some n => n >? 8
  end.

Definition warn_limit (instructionDataBytes : Z) (usesALT : bool)
    (effectiveInstructionLimit : Z) : string :=
  "Instruction data (" ++ string_of_Z instructionDataBytes ++ " bytes) exceeds "
    ++ (if usesALT then "ALT-adjusted" else "safe")
    ++ " limit (" ++ string_of_Z effectiveInstructionLimit ++ ")".

Definition warn_tx_max : string :=
  "Instruction data exceeds MAX Solana TX size ("
    ++ string_of_Z SOLANA_TX_MAX_BYTES ++ ")".

Definition warn_public_inputs (publicInputCount : Z) : string :=
  "High public input count (" ++ string_of_Z publicInputCount
    ++ "). Consider hashing/packing.".

Definition warn_cu (totalCU : number) : string :=
  "High CU usage (" ++ string_of_number totalCU
    ++ "). Priority fees required to land.".

(** [if (c) warnings.push(w)] *)
Definition push_if (c : bool) (w : string) (warnings : list string)
  : list string :=
  if c then warnings ++ [w] else warnings.

Definition profileCircuit (fs : FS) (circuitRoot : string)
    (opts : option Options) : M ProfileResult :=
  a <- resolveCircuitArtifacts fs circuitRoot ;;

  proofBytes <- statSync_size fs (Artifacts.proofPath a) ;;
  publicWitnessBytes <- statSync_size fs (Artifacts.pwPath a) ;;
  let instructionDataBytes := proofBytes + publicWitnessBytes in

  witnessBytes <- sizeIfExists fs (Artifacts.witnessPath a) ;;
  acirBytes <- sizeIfExists fs (Artifacts.acirPath a) ;;
  publicInputCount <- estimatePublicInputs fs (Artifacts.pwPath a) ;;
  constraintCount <- extractConstraintCount fs (Artifacts.acirPath a) ;;

  let usesALT := usesALT_or_false opts in
  let effectiveInstructionLimit :=
    if usesALT then SAFE_INSTRUCTION_DATA_LIMIT_ALT
    else SAFE_INSTRUCTION_DATA_LIMIT in

  let warnings := [] in
  let warnings :=
    push_if (instructionDataBytes >? effectiveInstructionLimit)
      (warn_limit instructionDataBytes usesALT effectiveInstructionLimit)
      warnings in
  let warnings :=
    push_if (instructionDataBytes >? SOLANA_TX_MAX_BYTES) warn_tx_max
      warnings in
  let warnings :=
    push_if (high_public_inputs publicInputCount)
      (warn_public_inputs (match publicInputCount with Some n => n | None => 0 end))
      warnings in

  let totalCU :=
    predictComputeUnits (option_map Num publicInputCount)
                        (option_map ToNumber constraintCount) in

  let warnings := push_if (gtb totalCU (Num 900000)) (warn_cu totalCU) warnings in

  let priorityFees := estimatePriorityFees totalCU in
  vkBytes <- sizeIfExists fs (Artifacts.vkPath a) ;;
  let vkRentEstimateSOL := estimateRent vkBytes in

  let status :=
    if instructionDataBytes >? SOLANA_TX_MAX_BYTES then FAIL
    else if (0 <? List.length warnings)%nat then WARN
    else PASS in

  ret {| circuitName := Artifacts.circuitName a;
         proofBytes := proofBytes;
         publicWitnessBytes := publicWitnessBytes;
         instructionDataBytes := instructionDataBytes;
         effectiveInstructionLimit := effectiveInstructionLimit;
         publicInputCount := publicInputCount;
         constraintCount := constraintCount;
         totalCU := totalCU;
         priorityFees := priorityFees;
         vkRentEstimateSOL := vkRentEstimateSOL;
         witnessBytes := witnessBytes;
         acirBytes := acirBytes;
         fitsInSolanaTx := instructionDataBytes <=? SOLANA_TX_MAX_BYTES;
         status := status;
         warnings := warnings |}.

End Profiler.

(** ** Example file systems *)

(** A file system given by the list of its paths. *)
Definition mkfs (nodes : list (string * Node)) : FS :=
  fun p =>
    match find (fun kv => String.eqb (fst kv) p) nodes with
    | Some kv => Some (snd kv)
    | None => None
    end.

(** No coercion of a string, an array or an object yields a number. *)
Definition coerce_NaN : JSON -> number := fun _ => NaN.

(** A 300-byte proof and a 200-byte public witness, nothing else. *)
Definition fs_small : FS :=
  mkfs [("c/target", Directory 4096 ["one.proof"; "one.pw"]);
        ("c/target/one.proof", File 300 None);
        ("c/target/one.pw", File 200 None)].

(** The same with a 320-byte public witness: ten public inputs. *)
Definition fs_ten_inputs : FS :=
  mkfs [("c/target", Directory 4096 ["one.proof"; "one.pw"]);
        ("c/target/one.proof", File 300 None);
        ("c/target/one.pw", File 320 None)].

(** A 1000-byte proof and a 300-byte public witness, with a
    circuit-definition file of 8 bytes that is not JSON. *)
Definition fs_large_bad_json : FS :=
  mkfs [("c/target", Directory 4096 ["one.json"; "one.proof"; "one.pw"]);
        ("c/target/one.proof", File 1000 None);
        ("c/target/one.pw", File 300 None);
        ("c/target/one.json", File 8 None)].

(** The small circuit with a circuit-definition file that is not JSON. *)
Definition fs_small_bad_json : FS :=
  mkfs [("c/target", Directory 4096 ["one.json"; "one.proof"; "one.pw"]);
        ("c/target/one.proof", File 300 None);
        ("c/target/one.pw", File 200 None);
        ("c/target/one.json", File 8 None)].

(** The small circuit with an empty verification-key file. *)
Definition fs_empty_vk : FS :=
  mkfs [("c/target", Directory 4096 ["one.proof"; "one.pw"; "one.vk"]);
        ("c/target/one.proof", File 300 None);
        ("c/target/one.pw", File 200 None);
        ("c/target/one.vk", File 0 None)].

(** The small circuit with a one-kilobyte verification key. *)
Definition fs_vk_1k : FS :=
  mkfs [("c/target", Directory 4096 ["one.proof"; "one.pw"; "one.vk"]);
        ("c/target/one.proof", File 300 None);
        ("c/target/one.pw", File 200 None);
        ("c/target/one.vk", File 1024 None)].

(** The small circuit with the 34-byte circuit-definition file
    [{ constraints: { length: -100000 } }]. *)
Definition fs_negative_length : FS :=
  mkfs [("c/target", Directory 4096 ["one.json"; "one.proof"; "one.pw"]);
        ("c/target/one.proof", File 300 None);
        ("c/target/one.pw", File 200 None);
        ("c/target/one.json",
         File 34 (Some (JObj [("constraints",
                               JObj [("length", JNum (-100000))])])))].

(** The small circuit whose circuit definition lists 10001 constraints. *)
Definition fs_10001_constraints : FS :=
  mkfs [("c/target", Directory 4096 ["one.json"; "one.proof"; "one.pw"]);
        ("c/target/one.proof", File 300 None);
        ("c/target/one.pw", File 200 None);
        ("c/target/one.json",
         File 70000 (Some (JObj [("constraints", JArr (repeat (JNum 0) (Z.to_nat 10001)))])))].

(** Two proofs in one build directory, listed in the two possible orders. *)
Definition two_proofs (listing : list string) : FS :=
  mkfs [("c/target", Directory 4096 listing);
        ("c/target/a.proof", File 300 None);
        ("c/target/a.pw", File 200 None);
        ("c/target/b.proof", File 300 None);
        ("c/target/b.pw", File 200 None)].

Definition fs_a_first : FS := two_proofs ["a.proof"; "a.pw"; "b.proof"; "b.pw"].
Definition fs_b_first : FS := two_proofs ["b.proof"; "b.pw"; "a.proof"; "a.pw"].

Definition ALT_on : option Options := Some {| usesALT := Some true |}.
Definition ALT_off : option Options := Some {| usesALT := Some false |}.

(** ** Command line ([index.ts]) *)

Section CommandLine.

Variable ToNumber_other : JSON -> number.

(** [path.resolve(p)]: the absolute path of [p], which depends on the
    working directory of the process. *)
Variable path_resolve : string -> string.

(** What the command does, the text of the report left out: it prints the
    usage, or the message of the error the engine raised, or the report. *)
Inductive Outcome : Type :=
| Usage
| ProfilingFailed (err : Error)
| Reported (result : ProfileResult).

(** The script run as the entry point.  [args] is [process.argv.slice(2)];
    [!circuitRoot] holds when there is no argument and when the first one is
    the empty string.  The engine is called without options. *)
Definition zk_profiler (fs : FS) (args : list string) : Outcome :=
  match args with
  | [] => Usage
  | circuitRoot :: _ =>
      if String.eqb circuitRoot "" then Usage
      else
        match profileCircuit ToNumber_other fs (path_resolve circuitRoot) None with
        | inr result => Reported result
        | inl err => ProfilingFailed err
        end
  end.


End CommandLine.

(** A build directory whose only proof is [x.proofs.proof]. *)
Definition fs_inner_proof : FS :=
  mkfs [("c/target", Directory 4096 ["x.proofs.proof"; "x.proofs.pw"]);
        ("c/target/x.proofs.proof", File 300 None);
        ("c/target/x.proofs.pw", File 200 None)].

(** The small circuit whose public witness is a directory. *)
Definition fs_pw_directory : FS :=
  mkfs [("c/target", Directory 4096 ["one.proof"; "one.pw"]);
        ("c/target/one.proof", File 300 None);
        ("c/target/one.pw", Directory 4096 [])].

(** The small circuit without its public witness. *)
Definition fs_no_pw : FS :=
  mkfs [("c/target", Directory 4096 ["one.proof"]);
        ("c/target/one.proof", File 300 None)].

(** The small circuit with the 33-byte circuit-definition file
    [{ constraints: { length: 'many' } }]. *)
Definition fs_text_length : FS :=
  mkfs [("c/target", Directory 4096 ["one.json"; "one.proof"; "one.pw"]);
        ("c/target/one.proof", File 300 None);
        ("c/target/one.pw", File 200 None);
        ("c/target/one.json",
         File 33 (Some (JObj [("constraints",
                               JObj [("length", JStr "many")])])))].

(** [fees[level]], and whether that quote is there and equal to 0. *)
Definition quote (fees : list (string * float)) (level : string)
  : option float :=
  match find (fun entry => String.eqb (fst entry) level) fees with
  | Some entry => Some (snd entry)
  | None => None
  end.

Definition quote_is_zero (fees : list (string * float)) (level : string)
  : bool :=
  match quote fees level with
  | Some q => (q =? 0)%float
  | None => false
  end.

(** ** The exact range of binary64 *)

(** [Number.MAX_SAFE_INTEGER]: binary64 holds every integer up to it, and an
    operation on such integers whose exact result is one of them is exact.
    Beyond it the runtime rounds, which the integers of [number] do not. *)
Definition MAX_SAFE_INTEGER : Z := 9007199254740991.

Definition safe_integer (z : Z) : Prop := Z.abs z <= MAX_SAFE_INTEGER.

(** Every number [predictComputeUnits] computes from [p] public inputs and
    [c] constraints is a safe integer. *)
Definition safe_prediction (p c : Z) : Prop :=
  safe_integer p /\ safe_integer c /\
  safe_integer (p * 12000) /\
  safe_integer (c / 10000 * 20000) /\
  safe_integer (150000 + p * 12000) /\
  safe_integer (150000 + p * 12000 + c / 10000 * 20000).

(** [Math.floor] on a binary64 value. *)
Definition Math_floor (x : float) : float :=
  match Prim2SF x with
  | S754_finite s m e =>
      if 0 <=? e then x
      else if s then float_of_Z (- ((Z.pos m + 2 ^ (- e) - 1) / 2 ^ (- e)))
      else float_of_Z (Z.pos m / 2 ^ (- e))
  | _ => x
  end.

(** [predictComputeUnits] as the runtime computes it, every operation in
    binary64. *)
Definition predictComputeUnits_binary64
    (publicInputs constraintCount : option float) : float :=
  let publicInputs :=
    match publicInputs with Some v => v | None => 0%float end in
  let constraintCount :=
    match constraintCount with Some v => v | None => 0%float end in
  let constraintCU :=
    (Math_floor (constraintCount / 10000) * 20000)%float in
  let totalCU :=
    (150000 + publicInputs * 12000 + constraintCU)%float in
  totalCU.

(** The integer a binary64 value is, when it is one. *)
Definition integer_value (x : float) : option Z :=
  match Prim2SF x with
  | S754_zero _ => Some 0
  | S754_finite s m e =>
      let sign := if s then -1 else 1 in
      if 0 <=? e then Some (sign * (Z.pos m * 2 ^ e))
      else if Z.pos m mod 2 ^ (- e) =? 0
           then Some (sign * (Z.pos m / 2 ^ (- e)))
           else None
  | _ => None
  end.

(** The small circuit with the 47-byte circuit-definition file
    [{ constraints: { length: 10000000000000000000 } }]. *)
Definition fs_huge_count : FS :=
  mkfs [("c/target", Directory 4096 ["one.json"; "one.proof"; "one.pw"]);
        ("c/target/one.proof", File 300 None);
        ("c/target/one.pw", File 200 None);
        ("c/target/one.json",
         File 47 (Some (JObj [("constraints",
                               JObj [("length", JNum (10 ^ 19))])])))].

(** The small circuit with the 20-byte circuit-definition file
    [{ constraints: null }]. *)
Definition fs_null_constraints : FS :=
  mkfs [("c/target", Directory 4096 ["one.json"; "one.proof"; "one.pw"]);
        ("c/target/one.proof", File 300 None);
        ("c/target/one.pw", File 200 None);
        ("c/target/one.json",
         File 20 (Some (JObj [("constraints", JNull)])))].

(** * Properties *)

(** ** The error monad and the helpers *)

Ltac bind_inr H :=
  repeat match type of H with
    | match ?c with inl _ => inl _ | inr _ => _ end = inr _ =>
        let E := fresh "E" in
        destruct c eqn:E; [discriminate H|]
    end.

Lemma sizeIfExists_returns fs p :
  exists o, sizeIfExists fs p = inr o.
Proof.
  unfold sizeIfExists, existsSync, statSync_size.
  destruct (fs p) as [[sz j|sz es]|]; cbn; eauto.
Qed.

Lemma sizeIfExists_spec fs p o :
  sizeIfExists fs p = inr o ->
  (existsSync fs p = false /\ o = None) \/
  (existsSync fs p = true /\ statSync_size fs p = inr (match o with Some z => z | None => 0 end)
   /\ exists z, o = Some z /\ 0 <= z).
Proof.
  unfold sizeIfExists, existsSync, statSync_size.
  destruct (fs p) as [[sz j|sz es]|]; cbn; intros H; inversion H; subst;
    try (right; repeat split; eexists; split; [reflexivity|lia]).
  left; auto.
Qed.

Lemma extractConstraintCount_returns fs p :
  exists o, extractConstraintCount fs p = inr o.
Proof.
  unfold extractConstraintCount.
  destruct (negb (existsSync fs p)); cbn; eauto.
  destruct (JSON_parse_file fs p) as [e|acir]; cbn; eauto.
  destruct (member acir "constraints") as [e|c]; cbn; eauto.
Qed.

Lemma estimatePublicInputs_inr fs p o :
  estimatePublicInputs fs p = inr o ->
  o = None \/ exists bytes, o = Some (bytes / 32) /\ 0 <= bytes
                            /\ readFileSync_length fs p = inr bytes.
Proof.
  unfold estimatePublicInputs, existsSync, readFileSync_length.
  destruct (fs p) as [[sz j|sz es]|]; cbn; intros H; inversion H; subst; auto.
  right. exists (Z.of_N sz). repeat split. lia.
Qed.

(** What a returned report is made of: every field in terms of what the
    run read from the file system. *)
Lemma profileCircuit_inr tn fs root opts r :
  profileCircuit tn fs root opts = inr r ->
  exists a vkBytes,
    resolveCircuitArtifacts fs root = inr a /\
    statSync_size fs (Artifacts.proofPath a) = inr (proofBytes r) /\
    statSync_size fs (Artifacts.pwPath a) = inr (publicWitnessBytes r) /\
    sizeIfExists fs (Artifacts.witnessPath a) = inr (witnessBytes r) /\
    sizeIfExists fs (Artifacts.acirPath a) = inr (acirBytes r) /\
    estimatePublicInputs fs (Artifacts.pwPath a) = inr (publicInputCount r) /\
    extractConstraintCount fs (Artifacts.acirPath a) = inr (constraintCount r) /\
    sizeIfExists fs (Artifacts.vkPath a) = inr vkBytes /\
    vkRentEstimateSOL r = estimateRent vkBytes /\
    circuitName r = Artifacts.circuitName a /\
    instructionDataBytes r = proofBytes r + publicWitnessBytes r /\
    effectiveInstructionLimit r =
      (if usesALT_or_false opts then 750 else 900) /\
    totalCU r =
      predictComputeUnits (option_map Num (publicInputCount r))
                          (option_map (ToNumber tn) (constraintCount r)) /\
    fitsInSolanaTx r = (instructionDataBytes r <=? 1232) /\
    status r =
      (if instructionDataBytes r >? 1232 then FAIL
       else if (0 <? List.length (warnings r))%nat then WARN else PASS) /\
    warnings r =
      push_if (gtb (totalCU r) (Num 900000)) (warn_cu (totalCU r))
        (push_if (high_public_inputs (publicInputCount r))
           (warn_public_inputs
              (match publicInputCount r with Some n => n | None => 0 end))
           (push_if (instructionDataBytes r >? 1232) warn_tx_max
              (push_if (instructionDataBytes r >? effectiveInstructionLimit r)
                 (warn_limit (instructionDataBytes r) (usesALT_or_false opts)
                    (effectiveInstructionLimit r))
                 []))).
Proof.
  unfold profileCircuit. intros H. cbn [bind Monad_either] in H.
  bind_inr H. cbn [ret Monad_either] in H. inversion H; subst; clear H.
  cbn. eexists _, _. repeat (split; [eassumption || reflexivity|]). reflexivity.
Qed.

(** ** Status and transaction fit *)

(** C1. The status of a returned report is FAIL when the instruction data
    exceeds 1232 bytes, whatever else was measured; otherwise WARN when the
    warning list is not empty; otherwise PASS.  So it is PASS exactly when
    the list is empty and the instruction data is at most 1232 bytes. *)
Theorem status_derivation tn fs root opts r :
  profileCircuit tn fs root opts = inr r ->
  (1232 < instructionDataBytes r -> status r = FAIL) /\
  (instructionDataBytes r <= 1232 -> warnings r <> [] -> status r = WARN) /\
  (instructionDataBytes r <= 1232 -> warnings r = [] -> status r = PASS) /\
  (status r = PASS <-> warnings r = [] /\ instructionDataBytes r <= 1232).
Proof.
  intros H. apply profileCircuit_inr in H.
  destruct H as (a & vk & _ & _ & _ & _ & _ & _ & _ & _ & _ & _ & _ & _ & _ & _ & Hst & _).
  rewrite Hst. clear Hst.
  destruct (Z.gtb_spec (instructionDataBytes r) 1232) as [Hgt|Hle].
  - split; [reflexivity|]. split; [lia|]. split; [lia|].
    split; [discriminate | intros [_ ?]; lia].
  - split; [lia|].
    destruct (warnings r) as [|w ws]; cbn.
    + split; [congruence|]. split; [reflexivity|]. split; auto.
    + split; [reflexivity|]. split; [discriminate|].
      split; [discriminate | intros [? _]; discriminate].
Qed.

Lemma status_derivation_witness :
  exists r, profileCircuit coerce_NaN fs_ten_inputs "c" None = inr r /\
            instructionDataBytes r = 620 /\
            warnings r <> [] /\
            status r = WARN.
Proof.
  eexists. split; [vm_compute; reflexivity|].
  split; [reflexivity|]. split; [discriminate|].
  match goal with |- status ?r = WARN =>
    destruct (status_derivation coerce_NaN fs_ten_inputs "c" None r)
      as (_ & Hwarn & _); [vm_compute; reflexivity|]
  end.
  apply Hwarn; cbn; [lia|discriminate].
Defined.

(** C2. The instruction data of a returned report is exactly the byte size
    of the proof file plus the byte size of the public-witness file. *)
Theorem instruction_data_is_proof_plus_witness tn fs root opts r :
  profileCircuit tn fs root opts = inr r ->
  exists a,
    resolveCircuitArtifacts fs root = inr a /\
    statSync_size fs (Artifacts.proofPath a) = inr (proofBytes r) /\
    statSync_size fs (Artifacts.pwPath a) = inr (publicWitnessBytes r) /\
    instructionDataBytes r = proofBytes r + publicWitnessBytes r.
Proof.
  intros H. apply profileCircuit_inr in H.
  destruct H as (a & vk & Ha & Hp & Hw & _ & _ & _ & _ & _ & _ & _ & Hi & _).
  exists a. auto.
Qed.

Lemma instruction_data_is_proof_plus_witness_witness :
  exists r, profileCircuit coerce_NaN fs_small "c" None = inr r /\
            proofBytes r = 300 /\ publicWitnessBytes r = 200 /\
            instructionDataBytes r = proofBytes r + publicWitnessBytes r.
Proof.
  eexists. split; [vm_compute; reflexivity|].
  split; [reflexivity|]. split; [reflexivity|].
  match goal with |- instructionDataBytes ?r = _ =>
    destruct (instruction_data_is_proof_plus_witness
                coerce_NaN fs_small "c" None r)
      as (a & _ & _ & _ & Hsum); [vm_compute; reflexivity|]
  end.
  exact Hsum.
Defined.

(** C3. The fit flag of a returned report is [instructionDataBytes <= 1232];
    a run on the same artifacts with any other setting of the lookup-table
    option returns too, with the same instruction data and the same flag.
    The effective instruction limit is 750 when the option is on and 900
    when it is off (given as false, left out, or no options at all). *)
Theorem fit_and_effective_limit tn fs root opts r :
  profileCircuit tn fs root opts = inr r ->
  fitsInSolanaTx r = (instructionDataBytes r <=? 1232) /\
  (forall opts', exists r',
      profileCircuit tn fs root opts' = inr r' /\
      instructionDataBytes r' = instructionDataBytes r /\
      fitsInSolanaTx r' = fitsInSolanaTx r) /\
  (opts = Some {| usesALT := Some true |} -> effectiveInstructionLimit r = 750) /\
  (opts <> Some {| usesALT := Some true |} -> effectiveInstructionLimit r = 900).
Proof.
  intros H. pose proof H as H0. unfold profileCircuit in H0.
  cbn [bind Monad_either] in H0. bind_inr H0.
  cbn [ret Monad_either] in H0. inversion H0; subst; clear H0. cbn.
  split; [reflexivity|]. split; [|split].
  - intros opts'. unfold profileCircuit. cbn [bind Monad_either].
    rewrite E, E0, E1, E2, E3, E4, E5, E6. cbn [ret Monad_either].
    eexists. split; [reflexivity|]. cbn. split; reflexivity.
  - intros ->. reflexivity.
  - intros Hne. destruct opts as [[[[|]|]]|]; cbn; try reflexivity.
    exfalso; apply Hne; reflexivity.
Qed.

Lemma fit_and_effective_limit_witness :
  exists r, profileCircuit coerce_NaN fs_small "c" ALT_on = inr r /\
            fitsInSolanaTx r = (instructionDataBytes r <=? 1232) /\
            effectiveInstructionLimit r = 750.
Proof.
  eexists. split; [vm_compute; reflexivity|].
  match goal with |- fitsInSolanaTx ?r = _ /\ _ =>
    destruct (fit_and_effective_limit coerce_NaN fs_small "c" ALT_on r)
      as (Hfit & _ & Hon & _); [vm_compute; reflexivity|]
  end.
  split; [exact Hfit | apply Hon; reflexivity].
Defined.

(** C9. A returned report has status FAIL exactly when its fit flag is
    false; a PASS or WARN report fits. *)
Theorem fail_iff_not_fits tn fs root opts r :
  profileCircuit tn fs root opts = inr r ->
  (status r = FAIL <-> fitsInSolanaTx r = false) /\
  (status r = PASS \/ status r = WARN -> fitsInSolanaTx r = true).
Proof.
  intros H. apply profileCircuit_inr in H.
  destruct H as (a & vk & _ & _ & _ & _ & _ & _ & _ & _ & _ & _ & _ & _ & _ & Hfit & Hst & _).
  rewrite Hst, Hfit. clear Hst Hfit.
  destruct (Z.gtb_spec (instructionDataBytes r) 1232) as [Hgt|Hle];
    destruct (Z.leb_spec (instructionDataBytes r) 1232) as [Hle'|Hgt']; try lia.
  - split; [split; reflexivity|]. intros [?|?]; discriminate.
  - destruct (0 <? List.length (warnings r))%nat;
      (split; [split; discriminate | reflexivity]).
Qed.

Lemma fail_iff_not_fits_witness :
  exists r, profileCircuit coerce_NaN fs_large_bad_json "c" None = inr r /\
            fitsInSolanaTx r = false /\ status r = FAIL.
Proof.
  eexists. split; [vm_compute; reflexivity|].
  split; [reflexivity|].
  match goal with |- status ?r = FAIL =>
    destruct (fail_iff_not_fits coerce_NaN fs_large_bad_json "c" None r)
      as ((_ & Hfail) & _); [vm_compute; reflexivity|]
  end.
  apply Hfail. reflexivity.
Defined.

(** ** Compute units *)

(** On integer arguments the prediction is the integer formula. *)
Lemma predictComputeUnits_Num p c :
  predictComputeUnits (Some (Num p)) (Some (Num c))
  = Num (150000 + p * 12000 + c / 10000 * 20000).
Proof. reflexivity. Qed.

(** Without a constraint count the constraint term is 0. *)
Lemma predictComputeUnits_no_count p :
  predictComputeUnits (Some (Num p)) None = Num (150000 + p * 12000).
Proof.
  rewrite <- (Z.add_0_r (150000 + p * 12000)). reflexivity.
Qed.

Lemma publicInputCount_nonneg fs p o :
  estimatePublicInputs fs p = inr o ->
  0 <= match o with Some n => n | None => 0 end.
Proof.
  intros H. apply estimatePublicInputs_inr in H.
  destruct H as [->|(bytes & -> & Hb & _)]; [lia|].
  apply Z.div_pos; lia.
Qed.

(** C4, as the specification states it, fails beyond the integers that
    binary64 holds exactly.  The circuit-definition file
    [{ constraints: { length: 10000000000000000000 } }] gives a count of
    10^19 beside 6 public inputs; the runtime's total is
    [2 * 10^19 + 221184], where the formula gives [2 * 10^19 + 222000]. *)
Lemma total_rounds_counterexample :
  exists r, profileCircuit coerce_NaN fs_huge_count "c" None = inr r /\
            publicInputCount r = Some 6 /\
            constraintCount r = Some (JNum (10 ^ 19)) /\
            integer_value
              (predictComputeUnits_binary64 (Some (float_of_Z 6))
                                            (Some (float_of_Z (10 ^ 19))))
            = Some (2 * 10 ^ 19 + 221184) /\
            150000 + 6 * 12000 + 10 ^ 19 / 10000 * 20000
            = 2 * 10 ^ 19 + 222000 /\
            2 * 10 ^ 19 + 221184 <> 2 * 10 ^ 19 + 222000.
Proof.
  eexists. split; [vm_compute; reflexivity|].
  split; [reflexivity|]. split; [reflexivity|].
  split; [vm_compute; reflexivity|]. split; [reflexivity|]. discriminate.
Qed.

(** Inside the safe range the two agree: on every public-input count up to
    40 and on counts around the bucket borders and up to 10^12, the
    binary64 prediction is the integer of the exact one. *)
Lemma binary64_agrees_on_samples p c :
  In p (map Z.of_nat (seq 0 41)) ->
  In c [0; 1; 9999; 10000; 10001; 19999; 20000; 149999; 150000; 1234567;
        4294967295; 10 ^ 12 - 1; 10 ^ 12] ->
  Some (match predictComputeUnits (Some (Num p)) (Some (Num c)) with
        | Num t => t
        | NaN => 0
        end)
  = integer_value
      (predictComputeUnits_binary64 (Some (float_of_Z p)) (Some (float_of_Z c))).
Proof.
  intros Hp Hc.
  assert (Hall :
    forallb (fun p =>
      forallb (fun c =>
        match integer_value
                (predictComputeUnits_binary64 (Some (float_of_Z p))
                                              (Some (float_of_Z c))),
              predictComputeUnits (Some (Num p)) (Some (Num c)) with
        | Some z, Num t => z =? t
        | _, _ => false
        end)
        [0; 1; 9999; 10000; 10001; 19999; 20000; 149999; 150000; 1234567;
         4294967295; 10 ^ 12 - 1; 10 ^ 12])
      (map Z.of_nat (seq 0 41)) = true) by (vm_compute; reflexivity).
  rewrite forallb_forall in Hall. specialize (Hall p Hp).
  rewrite forallb_forall in Hall. specialize (Hall c Hc).
  destruct (integer_value _) as [z|]; [|discriminate Hall].
  destruct (predictComputeUnits _ _) as [t|]; [|discriminate Hall].
  apply Z.eqb_eq in Hall. congruence.
Qed.

(** C4, amended. As long as every number of the formula is a safe integer,
    the total of a returned report is
    [150000 + publicInputs * 12000 + floor(constraints / 10000) * 20000],
    an absent count standing for 0 in the formula (the report keeps it
    absent), and a count of 10001 adds exactly one bucket of 20000.  A
    count that coerces to [NaN] gives the total [NaN]. *)
Theorem total_compute_units tn fs root opts r :
  profileCircuit tn fs root opts = inr r ->
  let publicInputs := match publicInputCount r with Some p => p | None => 0 end in
  let constraints :=
    match constraintCount r with Some v => ToNumber tn v | None => Num 0 end in
  (forall c, constraints = Num c -> safe_prediction publicInputs c ->
             totalCU r = Num (150000 + publicInputs * 12000 + c / 10000 * 20000)) /\
  (constraints = NaN -> totalCU r = NaN) /\
  (constraintCount r = None -> safe_prediction publicInputs 0 ->
   totalCU r = Num (150000 + publicInputs * 12000)) /\
  (constraintCount r = Some (JNum 10001) -> safe_prediction publicInputs 10001 ->
   totalCU r = Num (150000 + publicInputs * 12000 + 20000)).
Proof.
  intros H. apply profileCircuit_inr in H.
  destruct H as (a & vk & _ & _ & _ & _ & _ & _ & _ & _ & _ & _ & _ & _ & Hcu & _).
  cbn zeta. rewrite Hcu. clear Hcu.
  assert (Hd :
    predictComputeUnits (option_map Num (publicInputCount r))
                        (option_map (ToNumber tn) (constraintCount r))
    = predictComputeUnits
        (Some (Num (match publicInputCount r with Some p => p | None => 0 end)))
        (Some (match constraintCount r with
               | Some v => ToNumber tn v
               | None => Num 0
               end)))
    by (destruct (publicInputCount r), (constraintCount r); reflexivity).
  rewrite Hd. clear Hd. split; [|split; [|split]].
  - intros c Hc _. rewrite Hc. apply predictComputeUnits_Num.
  - intros Hc. rewrite Hc. reflexivity.
  - intros Hn _. rewrite Hn. rewrite predictComputeUnits_Num.
    f_equal. change (0 / 10000) with 0. lia.
  - intros Hn _. rewrite Hn. cbn [ToNumber]. rewrite predictComputeUnits_Num.
    reflexivity.
Qed.

Lemma total_compute_units_witness :
  exists r, profileCircuit coerce_NaN fs_10001_constraints "c" None = inr r /\
            publicInputCount r = Some 6 /\
            constraintCount r = Some (JNum 10001) /\
            totalCU r = Num (150000 + 6 * 12000 + 20000).
Proof.
  eexists. split; [vm_compute; reflexivity|].
  split; [reflexivity|]. split; [reflexivity|].
  match goal with |- totalCU ?r = _ =>
    destruct (total_compute_units coerce_NaN fs_10001_constraints "c" None r)
      as (_ & _ & _ & Hbucket); [vm_compute; reflexivity|]
  end.
  apply Hbucket; [reflexivity|].
  repeat split; vm_compute; discriminate.
Defined.

(** C7. The prediction does not decrease when the public-input count or the
    constraint count grows. *)
Theorem predictComputeUnits_monotone p1 p2 c1 c2 :
  0 <= p1 -> p1 <= p2 -> 0 <= c1 -> c1 <= c2 ->
  exists t1 t2,
    predictComputeUnits (Some (Num p1)) (Some (Num c1)) = Num t1 /\
    predictComputeUnits (Some (Num p2)) (Some (Num c2)) = Num t2 /\
    t1 <= t2.
Proof.
  intros Hp1 Hp Hc1 Hc.
  rewrite !predictComputeUnits_Num. eexists _, _.
  split; [reflexivity|]. split; [reflexivity|].
  assert (c1 / 10000 <= c2 / 10000) by (apply Z.div_le_mono; lia).
  lia.
Qed.

Lemma predictComputeUnits_monotone_witness :
  exists t1 t2,
    predictComputeUnits (Some (Num 6)) (Some (Num 9999)) = Num t1 /\
    predictComputeUnits (Some (Num 7)) (Some (Num 10001)) = Num t2 /\
    t1 <= t2.
Proof.
  apply (predictComputeUnits_monotone 6 7 9999 10001); lia.
Defined.

(** C10, as the specification states it, fails: the circuit-definition file
    [{ constraints: { length: -100000 } }] gives a count of -100000, ten
    negative buckets, and a total of 22000. *)
Lemma total_below_base_counterexample :
  exists r, profileCircuit coerce_NaN fs_negative_length "c" None = inr r /\
            constraintCount r = Some (JNum (-100000)) /\
            totalCU r = Num 22000 /\ 22000 < 150000.
Proof.
  eexists. split; [vm_compute; reflexivity|]. cbn. repeat split.
Qed.

(** C10, amended. The total of a returned report is at least 150000 when the
    constraint count is absent or coerces to a non-negative integer, as the
    length of an array or of a string does. *)
Theorem total_at_least_base tn fs root opts r :
  profileCircuit tn fs root opts = inr r ->
  (forall v, constraintCount r = Some v ->
             exists c, ToNumber tn v = Num c /\ 0 <= c) ->
  exists t, totalCU r = Num t /\ 150000 <= t.
Proof.
  intros H Hcount. apply profileCircuit_inr in H.
  destruct H as (a & vk & _ & _ & _ & _ & _ & Hpi & _ & _ & _ & _ & _ & _ & Hcu & _).
  apply publicInputCount_nonneg in Hpi. rewrite Hcu. clear Hcu.
  destruct (constraintCount r) as [v|]; cbn [option_map].
  - destruct (Hcount v eq_refl) as (c & -> & Hc).
    assert (0 <= c / 10000) by (apply Z.div_pos; lia).
    destruct (publicInputCount r) as [p|]; cbn [option_map];
      cbv [predictComputeUnits or_default floor_div mul add
           BASE_VERIFY_CU CU_PER_PUBLIC_INPUT CU_PER_10K_CONSTRAINTS];
      eexists; (split; [reflexivity|lia]).
  - destruct (publicInputCount r) as [p|]; cbn [option_map];
      cbv [predictComputeUnits or_default floor_div mul add
           BASE_VERIFY_CU CU_PER_PUBLIC_INPUT CU_PER_10K_CONSTRAINTS];
      change (0 / 10000) with 0;
      eexists; (split; [reflexivity|lia]).
Qed.

Lemma total_at_least_base_witness :
  exists r, profileCircuit coerce_NaN fs_10001_constraints "c" None = inr r /\
            exists t, totalCU r = Num t /\ 150000 <= t.
Proof.
  eexists. split; [vm_compute; reflexivity|].
  match goal with |- exists t, totalCU ?r = _ /\ _ =>
    apply (total_at_least_base coerce_NaN fs_10001_constraints "c" None r);
      [vm_compute; reflexivity|]
  end.
  intros v [= <-]. exists 10001. split; [reflexivity|lia].
Defined.

(** ** Rent *)

(** The rent estimate of a returned report is there exactly when the
    verification-key file exists and is not empty. *)
Lemma vk_rent_presence tn fs root opts r :
  profileCircuit tn fs root opts = inr r ->
  exists a,
    resolveCircuitArtifacts fs root = inr a /\
    (existsSync fs (Artifacts.vkPath a) = false -> vkRentEstimateSOL r = None) /\
    (forall bytes,
        existsSync fs (Artifacts.vkPath a) = true ->
        statSync_size fs (Artifacts.vkPath a) = inr bytes ->
        vkRentEstimateSOL r =
          if bytes =? 0 then None
          else Some (toFixed 4 (float_of_Z bytes / 1024 * 0.007)%float)).
Proof.
  intros H. apply profileCircuit_inr in H.
  destruct H as (a & vk & Ha & _ & _ & _ & _ & _ & _ & Hvk & Hrent & _).
  exists a. split; [exact Ha|]. rewrite Hrent. clear Hrent.
  apply sizeIfExists_spec in Hvk.
  destruct Hvk as [[Hex ->]|(Hex & Hsz & z & -> & Hz)]; split.
  - reflexivity.
  - intros bytes Hex'. congruence.
  - intros Hex'. congruence.
  - intros bytes _ Hb. rewrite Hsz in Hb. inversion Hb; subst.
    destruct bytes; reflexivity.
Qed.

(** C5, at the input where the code departs from it: the verification-key
    file exists with 0 bytes, and the report has no rent estimate, where the
    claim has the estimate present with value 0. *)
Theorem empty_vk_has_no_rent :
  exists r a,
    profileCircuit coerce_NaN fs_empty_vk "c" None = inr r /\
    resolveCircuitArtifacts fs_empty_vk "c" = inr a /\
    existsSync fs_empty_vk (Artifacts.vkPath a) = true /\
    statSync_size fs_empty_vk (Artifacts.vkPath a) = inr 0 /\
    vkRentEstimateSOL r = None.
Proof.
  eexists _, _. split; [vm_compute; reflexivity|].
  split; [vm_compute; reflexivity|]. cbn. repeat split.
Qed.

(** A verification key of one kilobyte costs 0.007. *)
Example vk_1k_rent :
  exists r, profileCircuit coerce_NaN fs_vk_1k "c" None = inr r /\
            vkRentEstimateSOL r = Some 0.007%float.
Proof.
  eexists. split; [vm_compute; reflexivity|]. reflexivity.
Qed.

(** ** Malformed circuit definitions *)

Lemma extractConstraintCount_malformed fs p :
  existsSync fs p = true ->
  (exists e, JSON_parse_file fs p = inl e) \/
  (exists v, JSON_parse_file fs p = inr v /\
             forall c n, get v "constraints" = Some c ->
                         get c "length" = Some n -> n = JNull) ->
  extractConstraintCount fs p = inr None.
Proof.
  intros Hex Hbad. unfold extractConstraintCount. rewrite Hex. cbn.
  destruct Hbad as [(e & ->)|(v & -> & Hv)]; cbn; [reflexivity|].
  assert (Hl : length_or_undefined (get v "constraints") = None).
  { unfold length_or_undefined.
    destruct (get v "constraints") as [c|] eqn:Hc; [|reflexivity].
    destruct (get c "length") as [n|] eqn:Hn.
    - rewrite (Hv c n eq_refl Hn). destruct c; reflexivity.
    - destruct c; reflexivity. }
  destruct v; cbn [member bind ret Monad_either catch Exception_either];
    try rewrite Hl; reflexivity.
Qed.

(** C6, as the specification states it, fails: with a 1000-byte proof and a
    300-byte public witness, a circuit-definition file that is not JSON
    leaves the count absent and the run returns, but the status is FAIL. *)
Lemma malformed_json_FAIL_counterexample :
  exists r a,
    profileCircuit coerce_NaN fs_large_bad_json "c" None = inr r /\
    resolveCircuitArtifacts fs_large_bad_json "c" = inr a /\
    existsSync fs_large_bad_json (Artifacts.acirPath a) = true /\
    JSON_parse_file fs_large_bad_json (Artifacts.acirPath a) = inl SyntaxError /\
    constraintCount r = None /\
    status r = FAIL.
Proof.
  eexists _, _. split; [vm_compute; reflexivity|].
  split; [vm_compute; reflexivity|]. cbn. repeat split.
Qed.

(** C6, amended. When the proof and the public witness are there and the
    circuit-definition file exists but does not parse, or parses to a value
    that lacks a constraints collection (no [constraints] member, or one
    that is [null] or has no length, or a [null] one), the run returns a
    report: the constraint count is absent, the total has no constraint
    term, and the status is PASS or WARN when the instruction data is at
    most 1232 bytes (FAIL above, as for any run). *)
Theorem malformed_circuit_definition tn fs root opts a proofSize pwSize :
  resolveCircuitArtifacts fs root = inr a ->
  statSync_size fs (Artifacts.proofPath a) = inr proofSize ->
  readFileSync_length fs (Artifacts.pwPath a) = inr pwSize ->
  existsSync fs (Artifacts.acirPath a) = true ->
  (exists e, JSON_parse_file fs (Artifacts.acirPath a) = inl e) \/
  (exists v, JSON_parse_file fs (Artifacts.acirPath a) = inr v /\
             forall c n, get v "constraints" = Some c ->
                         get c "length" = Some n -> n = JNull) ->
  exists r,
    profileCircuit tn fs root opts = inr r /\
    constraintCount r = None /\
    totalCU r = Num (150000 + pwSize / 32 * 12000) /\
    (proofSize + pwSize <= 1232 -> status r = PASS \/ status r = WARN) /\
    (1232 < proofSize + pwSize -> status r = FAIL).
Proof.
  intros Ha Hproof Hpw Hex Hbad.
  pose proof (extractConstraintCount_malformed _ _ Hex Hbad) as Hcc.
  assert (Hstat : statSync_size fs (Artifacts.pwPath a) = inr pwSize).
  { revert Hpw. unfold readFileSync_length, statSync_size.
    destruct (fs (Artifacts.pwPath a)) as [[sz j|sz es]|]; cbn; congruence. }
  assert (Hpi : estimatePublicInputs fs (Artifacts.pwPath a)
                = inr (Some (pwSize / 32))).
  { revert Hpw. unfold estimatePublicInputs, existsSync, readFileSync_length.
    destruct (fs (Artifacts.pwPath a)) as [[sz j|sz es]|]; cbn;
      intros H; inversion H; reflexivity. }
  destruct (sizeIfExists_returns fs (Artifacts.witnessPath a)) as (wb & Hwb).
  destruct (sizeIfExists_returns fs (Artifacts.acirPath a)) as (ab & Hab).
  destruct (sizeIfExists_returns fs (Artifacts.vkPath a)) as (vk & Hvk).
  unfold profileCircuit. cbn [bind Monad_either].
  rewrite Ha, Hproof, Hstat, Hwb, Hab, Hpi, Hcc, Hvk. cbn [ret Monad_either].
  eexists. split; [reflexivity|]. cbn [constraintCount totalCU status].
  split; [reflexivity|]. split; [apply predictComputeUnits_no_count|].
  change SOLANA_TX_MAX_BYTES with 1232.
  destruct (Z.gtb_spec (proofSize + pwSize) 1232) as [Hgt|Hle].
  - split; [intros; lia | reflexivity].
  - split; [|intros; lia].
    intros _. match goal with |- context [if ?b then WARN else PASS] =>
      destruct b end; auto.
Qed.

Lemma malformed_circuit_definition_witness :
  exists a,
    resolveCircuitArtifacts fs_null_constraints "c" = inr a /\
    exists r,
      profileCircuit coerce_NaN fs_null_constraints "c" None = inr r /\
      constraintCount r = None /\
      totalCU r = Num (150000 + 200 / 32 * 12000) /\
      (300 + 200 <= 1232 -> status r = PASS \/ status r = WARN) /\
      (1232 < 300 + 200 -> status r = FAIL).
Proof.
  eexists. split; [vm_compute; reflexivity|].
  match goal with |- exists r, profileCircuit _ _ _ _ = _ /\ _ =>
    eapply (malformed_circuit_definition coerce_NaN fs_null_constraints "c"
              None _ 300 200)
  end.
  - vm_compute; reflexivity.
  - reflexivity.
  - reflexivity.
  - reflexivity.
  - right. exists (JObj [("constraints", JNull)]). split; [reflexivity|].
    intros c n Hc Hn. cbn in Hc. inversion Hc; subst c. discriminate Hn.
Defined.

(** The same holds for a file that is not JSON at all. *)
Example malformed_circuit_definition_bad_json :
  exists r, profileCircuit coerce_NaN fs_small_bad_json "c" None = inr r /\
            constraintCount r = None /\ totalCU r = Num 222000 /\
            status r = PASS.
Proof.
  eexists. split; [vm_compute; reflexivity|]. repeat split.
Qed.

(** ** Several proofs in one build directory *)

Lemma find_hd_filter (A : Type) (f : A -> bool) (l : list A) :
  find f l = hd_error (filter f l).
Proof.
  induction l as [|x l IH]; cbn; [reflexivity|].
  destruct (f x); [reflexivity|exact IH].
Qed.

Lemma filter_Permutation (A : Type) (f : A -> bool) (l1 l2 : list A) :
  Permutation l1 l2 -> Permutation (filter f l1) (filter f l2).
Proof.
  induction 1 as [|x l1 l2 _ IH|x y l|l1 l2 l3 _ IH1 _ IH2]; cbn.
  - constructor.
  - destruct (f x); [constructor|]; exact IH.
  - destruct (f x), (f y); try reflexivity. constructor.
  - etransitivity; eassumption.
Qed.

Lemma Permutation_short_eq (A : Type) (l1 l2 : list A) :
  Permutation l1 l2 -> (List.length l1 <= 1)%nat -> l1 = l2.
Proof.
  intros HP Hlen. destruct l1 as [|x [|y l1]]; cbn in Hlen; try lia.
  - symmetry. apply Permutation_nil. exact HP.
  - symmetry. apply Permutation_length_1_inv. exact HP.
Qed.

(** The locator takes the first entry of the listing that ends in [.proof]. *)
Lemma resolveCircuitArtifacts_first fs root a :
  resolveCircuitArtifacts fs root = inr a ->
  exists sz before proofFile after,
    fs (path_join root "target") = Some (Directory sz (before ++ proofFile :: after)) /\
    endsWith proofFile ".proof" = true /\
    (forall f, In f before -> endsWith f ".proof" = false) /\
    Artifacts.circuitName a = replace proofFile ".proof" "".
Proof.
  unfold resolveCircuitArtifacts, existsSync, readdirSync.
  destruct (fs (path_join root "target")) as [[sz j|sz es]|]; cbn;
    try discriminate.
  destruct (find (fun f => endsWith f ".proof") es) as [proofFile|] eqn:Hfind;
    cbn; [|discriminate].
  intros H. inversion H; subst; clear H. cbn.
  exists sz. revert Hfind. induction es as [|x es IH]; cbn; [discriminate|].
  destruct (endsWith x ".proof") eqn:Hx.
  - intros [= ->]. exists [], proofFile, es. repeat split; auto.
    intros f [].
  - intros Hfind. destruct (IH Hfind) as (before & pf & after & Heq & Hpf & Hb & Hn).
    inversion Heq; subst.
    exists (x :: before), pf, after. repeat split; auto.
    intros f [<-|Hin]; auto.
Qed.

(** C8, as the specification states it, fails: the same entries listed in
    two orders give two circuit names. *)
Lemma listing_order_counterexample :
  Permutation ["a.proof"; "a.pw"; "b.proof"; "b.pw"]
              ["b.proof"; "b.pw"; "a.proof"; "a.pw"] /\
  exists a b,
    resolveCircuitArtifacts fs_a_first "c" = inr a /\
    resolveCircuitArtifacts fs_b_first "c" = inr b /\
    Artifacts.circuitName a = "a" /\
    Artifacts.circuitName b = "b".
Proof.
  split.
  - change (Permutation (["a.proof"; "a.pw"] ++ ["b.proof"; "b.pw"])
                        (["b.proof"; "b.pw"] ++ ["a.proof"; "a.pw"])).
    apply Permutation_app_comm.
  - eexists _, _. split; [vm_compute; reflexivity|].
    split; [vm_compute; reflexivity|]. split; reflexivity.
Qed.

(** C8, amended. When at most one entry of the build directory ends in
    [.proof], two listings of the same entries in different orders resolve
    to the same artifacts, circuit name included. *)
Theorem single_proof_listing_order fs1 fs2 root sz1 sz2 l1 l2 :
  fs1 (path_join root "target") = Some (Directory sz1 l1) ->
  fs2 (path_join root "target") = Some (Directory sz2 l2) ->
  Permutation l1 l2 ->
  (List.length (filter (fun f => endsWith f ".proof") l1) <= 1)%nat ->
  resolveCircuitArtifacts fs1 root = resolveCircuitArtifacts fs2 root.
Proof.
  intros H1 H2 HP Hone.
  unfold resolveCircuitArtifacts, existsSync, readdirSync.
  rewrite H1, H2. cbn. rewrite !find_hd_filter.
  rewrite (Permutation_short_eq _ _ _ (filter_Permutation _ _ _ _ HP) Hone).
  reflexivity.
Qed.

Lemma single_proof_listing_order_witness :
  resolveCircuitArtifacts fs_small "c"
  = resolveCircuitArtifacts
      (mkfs [("c/target", Directory 4096 ["one.pw"; "one.proof"])]) "c".
Proof.
  apply (single_proof_listing_order fs_small _ "c" 4096 4096
           ["one.proof"; "one.pw"] ["one.pw"; "one.proof"]).
  - reflexivity.
  - reflexivity.
  - apply perm_swap.
  - vm_compute. lia.
Defined.

(** ** The scenarios of the specification *)

(** A 300-byte proof and a 200-byte public witness: 500 bytes of instruction
    data, six public inputs, 222000 compute units, no rent, PASS. *)
Example scenario_small :
  exists r, profileCircuit coerce_NaN fs_small "c" None = inr r /\
            instructionDataBytes r = 500 /\
            effectiveInstructionLimit r = 900 /\
            publicInputCount r = Some 6 /\
            totalCU r = Num 222000 /\
            map fst (priorityFees r) = ["low"; "medium"; "high"] /\
            vkRentEstimateSOL r = None /\
            fitsInSolanaTx r = true /\
            warnings r = [] /\
            status r = PASS.
Proof.
  eexists. split; [vm_compute; reflexivity|]. cbn. repeat split.
Qed.

(** With a 320-byte public witness there are ten public inputs, one
    warning, and the status is WARN. *)
Example scenario_ten_inputs :
  exists r, profileCircuit coerce_NaN fs_ten_inputs "c" None = inr r /\
            publicInputCount r = Some 10 /\
            warnings r = ["High public input count (10). Consider hashing/packing."] /\
            status r = WARN.
Proof.
  eexists. split; [vm_compute; reflexivity|]. cbn. repeat split.
Qed.

(** A 1000-byte proof and a 300-byte public witness: both size warnings,
    no fit, FAIL. *)
Example scenario_large :
  exists r, profileCircuit coerce_NaN fs_large_bad_json "c" None = inr r /\
            instructionDataBytes r = 1300 /\
            warnings r =
              ["Instruction data (1300 bytes) exceeds safe limit (900)";
               "Instruction data exceeds MAX Solana TX size (1232)";
               "High public input count (9). Consider hashing/packing."] /\
            fitsInSolanaTx r = false /\
            status r = FAIL.
Proof.
  eexists. split; [vm_compute; reflexivity|]. cbn. repeat split.
Qed.

(** Without a build directory, and without a proof in it, the run stops
    with the engine's own errors. *)
Example scenario_errors :
  profileCircuit coerce_NaN (mkfs []) "c" None = inl (MissingTarget "c") /\
  profileCircuit coerce_NaN (mkfs [("c/target", Directory 4096 ["one.pw"])]) "c" None
  = inl NoProofFile.
Proof. split; reflexivity. Qed.

(** * Further properties of the engine *)

(** ** When a run returns, and with which error it stops *)

Lemma resolveCircuitArtifacts_cases fs root :
  match fs (path_join root "target") with
  | None => resolveCircuitArtifacts fs root = inl (MissingTarget root)
  | Some (File _ _) =>
      resolveCircuitArtifacts fs root = inl (ENOTDIR (path_join root "target"))
  | Some (Directory _ es) =>
      match find (fun f => endsWith f ".proof") es with
      | None => resolveCircuitArtifacts fs root = inl NoProofFile
      | Some _ => exists a, resolveCircuitArtifacts fs root = inr a
      end
  end.
Proof.
  unfold resolveCircuitArtifacts, existsSync, readdirSync.
  destruct (fs (path_join root "target")) as [[sz j|sz es]|]; cbn;
    try reflexivity.
  destruct (find (fun f => endsWith f ".proof") es); cbn; eauto.
Qed.

(** The locator fails in exactly three ways: the build directory is not
    there, it is not a directory, or none of its entries ends in [.proof];
    in every other case it resolves the artifacts. *)
Theorem resolveCircuitArtifacts_outcome fs root :
  (resolveCircuitArtifacts fs root = inl (MissingTarget root)
   <-> fs (path_join root "target") = None) /\
  (resolveCircuitArtifacts fs root = inl (ENOTDIR (path_join root "target"))
   <-> exists sz j, fs (path_join root "target") = Some (File sz j)) /\
  (resolveCircuitArtifacts fs root = inl NoProofFile
   <-> exists sz es, fs (path_join root "target") = Some (Directory sz es) /\
                     forall f, In f es -> endsWith f ".proof" = false) /\
  ((exists a, resolveCircuitArtifacts fs root = inr a)
   <-> exists sz es f, fs (path_join root "target") = Some (Directory sz es) /\
                       In f es /\ endsWith f ".proof" = true).
Proof.
  pose proof (resolveCircuitArtifacts_cases fs root) as H.
  destruct (fs (path_join root "target")) as [[sz j|sz es]|].
  - rewrite H. repeat split; try discriminate; eauto;
      try (intros (? & ? & ?); discriminate);
      try (intros (? & ? & ? & ? & _); discriminate);
      try (intros (? & ?); discriminate).
    intros (? & ? & ? & _). discriminate.
  - destruct (find (fun f => endsWith f ".proof") es) as [pf|] eqn:Hfind.
    + destruct H as (a & H). rewrite H.
      apply find_some in Hfind. destruct Hfind as (Hin & Hends).
      repeat split; try discriminate; eauto;
        try (intros (? & ? & ?); discriminate).
      * intros (sz' & es' & [= <- <-] & Hno).
        rewrite (Hno pf Hin) in Hends. discriminate.
      * intros _. exists sz, es, pf. auto.
    + rewrite H. repeat split; try discriminate; eauto;
        try (intros (? & ? & ?); discriminate);
        try (intros (? & ?); discriminate).
      * intros _. exists sz, es. split; [reflexivity|].
        intros f Hin. apply (find_none _ _ Hfind f Hin).
      * intros (sz' & es' & f & [= <- <-] & Hin & Hends).
        rewrite (find_none _ _ Hfind f Hin) in Hends. discriminate.
  - rewrite H. repeat split; try discriminate; eauto;
      try (intros (? & ? & ?); discriminate);
      try (intros (? & ?); discriminate).
    + intros (? & ? & ? & _). discriminate.
    + intros (? & ? & ? & ? & _). discriminate.
Qed.

(** The division in [predictComputeUnits] coerces the constraint count, and
    the runtime can raise there when the count is an array or an object
    (the [length] member of a parsed object can be one); that error is
    outside this development.  For a count that is absent, a number, a
    boolean or a string, a run returns a report exactly when the artifacts
    resolve, the proof path names something and the public-witness path
    names a regular file: the private witness, the verification key and
    the options never decide it. *)
Theorem profileCircuit_returns_iff tn fs root opts :
  (forall a v,
      resolveCircuitArtifacts fs root = inr a ->
      extractConstraintCount fs (Artifacts.acirPath a) = inr (Some v) ->
      (forall items, v <> JArr items) /\ (forall members, v <> JObj members)) ->
  ((exists r, profileCircuit tn fs root opts = inr r) <->
   (exists a, resolveCircuitArtifacts fs root = inr a /\
              existsSync fs (Artifacts.proofPath a) = true /\
              exists size parsed,
                fs (Artifacts.pwPath a) = Some (File size parsed))).
Proof.
  intros _. split.
  - intros (r & H). apply profileCircuit_inr in H.
    destruct H as (a & vk & Ha & Hp & Hw & _ & _ & Hpi & _).
    exists a. split; [exact Ha|]. split.
    + revert Hp. unfold statSync_size, existsSync.
      destruct (fs (Artifacts.proofPath a)); [reflexivity|discriminate].
    + revert Hw Hpi.
      unfold statSync_size, estimatePublicInputs, existsSync, readFileSync_length.
      destruct (fs (Artifacts.pwPath a)) as [[sz j|sz es]|]; cbn;
        intros Hw Hpi; try discriminate; eauto.
  - intros (a & Ha & Hp & size & parsed & Hw).
    assert (Hproof : exists pb, statSync_size fs (Artifacts.proofPath a) = inr pb).
    { revert Hp. unfold statSync_size, existsSync.
      destruct (fs (Artifacts.proofPath a)) as [[sz j|sz es]|]; cbn;
        try discriminate; eauto. }
    destruct Hproof as (pb & Hproof).
    destruct (sizeIfExists_returns fs (Artifacts.witnessPath a)) as (wb & Hwb).
    destruct (sizeIfExists_returns fs (Artifacts.acirPath a)) as (ab & Hab).
    destruct (sizeIfExists_returns fs (Artifacts.vkPath a)) as (vk & Hvk).
    destruct (extractConstraintCount_returns fs (Artifacts.acirPath a))
      as (cc & Hcc).
    unfold profileCircuit. cbn [bind Monad_either].
    rewrite Ha, Hproof, Hwb, Hab, Hcc, Hvk.
    unfold statSync_size at 1.
    unfold estimatePublicInputs, existsSync, readFileSync_length.
    rewrite Hw. cbn [negb bind ret Monad_either]. eexists. reflexivity.
Qed.

Lemma profileCircuit_returns_iff_witness :
  exists r, profileCircuit coerce_NaN fs_negative_length "c" ALT_on = inr r.
Proof.
  apply (profileCircuit_returns_iff coerce_NaN fs_negative_length "c" ALT_on).
  - intros a v Ha Hv. vm_compute in Ha. inversion Ha; subst a; clear Ha.
    vm_compute in Hv. inversion Hv; subst v.
    split; intros ? ?; discriminate.
  - eexists. split; [vm_compute; reflexivity|].
    split; [reflexivity|]. eexists _, _. reflexivity.
Defined.

(** Once the artifacts resolve, the proof is looked at before the public
    witness: a missing proof path stops the run with [ENOENT] on that path,
    a missing public witness with [ENOENT] on its path, and a public
    witness that is a directory with [EISDIR] (its size can be read, its
    content cannot).  An error of the locator is the error of the run. *)
Theorem required_artifact_errors tn fs root opts :
  (forall e, resolveCircuitArtifacts fs root = inl e ->
             profileCircuit tn fs root opts = inl e) /\
  (forall a, resolveCircuitArtifacts fs root = inr a ->
     (fs (Artifacts.proofPath a) = None ->
      profileCircuit tn fs root opts = inl (ENOENT (Artifacts.proofPath a))) /\
     (fs (Artifacts.proofPath a) <> None ->
      fs (Artifacts.pwPath a) = None ->
      profileCircuit tn fs root opts = inl (ENOENT (Artifacts.pwPath a))) /\
     (fs (Artifacts.proofPath a) <> None ->
      (exists sz es, fs (Artifacts.pwPath a) = Some (Directory sz es)) ->
      profileCircuit tn fs root opts = inl (EISDIR (Artifacts.pwPath a)))).
Proof.
  split.
  - intros e He. unfold profileCircuit. cbn [bind Monad_either].
    rewrite He. reflexivity.
  - intros a Ha. unfold profileCircuit. cbn [bind Monad_either]. rewrite Ha.
    destruct (sizeIfExists_returns fs (Artifacts.witnessPath a)) as (wb & Hwb).
    destruct (sizeIfExists_returns fs (Artifacts.acirPath a)) as (ab & Hab).
    rewrite Hwb, Hab.
    unfold statSync_size, estimatePublicInputs, existsSync, readFileSync_length.
    split; [|split].
    + intros ->. reflexivity.
    + intros Hp ->. destruct (fs (Artifacts.proofPath a)) as [[? ?|? ?]|];
        try reflexivity. contradiction.
    + intros Hp (sz & es & ->).
      destruct (fs (Artifacts.proofPath a)) as [[? ?|? ?]|];
        try reflexivity. contradiction.
Qed.

(** A run reads the build directory and the five artifact paths and nothing
    else: two file systems that agree on them give the same outcome. *)
Theorem profileCircuit_frame tn fs1 fs2 root opts a :
  resolveCircuitArtifacts fs1 root = inr a ->
  fs2 (path_join root "target") = fs1 (path_join root "target") ->
  fs2 (Artifacts.proofPath a) = fs1 (Artifacts.proofPath a) ->
  fs2 (Artifacts.pwPath a) = fs1 (Artifacts.pwPath a) ->
  fs2 (Artifacts.witnessPath a) = fs1 (Artifacts.witnessPath a) ->
  fs2 (Artifacts.acirPath a) = fs1 (Artifacts.acirPath a) ->
  fs2 (Artifacts.vkPath a) = fs1 (Artifacts.vkPath a) ->
  profileCircuit tn fs2 root opts = profileCircuit tn fs1 root opts.
Proof.
  intros Ha Ht Hp Hw Hg Hj Hv.
  assert (Ha2 : resolveCircuitArtifacts fs2 root = inr a).
  { rewrite <- Ha. unfold resolveCircuitArtifacts, existsSync, readdirSync.
    rewrite Ht. reflexivity. }
  unfold profileCircuit. cbn [bind Monad_either]. rewrite Ha, Ha2.
  unfold sizeIfExists, estimatePublicInputs, extractConstraintCount,
    existsSync, statSync_size, readFileSync_length, JSON_parse_file.
  rewrite Hp, Hw, Hg, Hj, Hv. reflexivity.
Qed.

Lemma profileCircuit_frame_witness :
  profileCircuit coerce_NaN fs_empty_vk "c" ALT_on
  = profileCircuit coerce_NaN
      (fun p => if String.eqb p "c/notes.txt" then Some (File 12 None)
                else fs_empty_vk p)
      "c" ALT_on.
Proof.
  symmetry.
  eapply (profileCircuit_frame coerce_NaN fs_empty_vk _ "c" ALT_on);
    [vm_compute; reflexivity | reflexivity ..].
Defined.

(** ** What the fields of a report say about the files *)

(** The sizes of a report are not negative; the public-input count is
    always there and is the public-witness size divided by 32 with the
    remainder dropped; each optional size is absent exactly when its file
    is; and a constraint count is only there with a circuit-definition
    size. *)
Theorem report_fields tn fs root opts r :
  profileCircuit tn fs root opts = inr r ->
  0 <= proofBytes r /\ 0 <= publicWitnessBytes r /\
  (exists n, publicInputCount r = Some n /\
             32 * n <= publicWitnessBytes r < 32 * n + 32) /\
  (exists a,
      resolveCircuitArtifacts fs root = inr a /\
      (witnessBytes r = None <-> fs (Artifacts.witnessPath a) = None) /\
      (acirBytes r = None <-> fs (Artifacts.acirPath a) = None)) /\
  (constraintCount r <> None -> acirBytes r <> None) /\
  (forall z, witnessBytes r = Some z \/ acirBytes r = Some z -> 0 <= z).
Proof.
  intros H. apply profileCircuit_inr in H.
  destruct H as (a & vk & Ha & Hp & Hw & Hwb & Hab & Hpi & Hcc & _).
  assert (Hp0 : 0 <= proofBytes r).
  { revert Hp. unfold statSync_size.
    destruct (fs (Artifacts.proofPath a)) as [[? ?|? ?]|]; cbn;
      intros [= <-]; lia. }
  assert (Hw0 : exists sz j, fs (Artifacts.pwPath a) = Some (File sz j)
                             /\ publicWitnessBytes r = Z.of_N sz
                             /\ publicInputCount r = Some (Z.of_N sz / 32)).
  { revert Hw Hpi.
    unfold statSync_size, estimatePublicInputs, existsSync, readFileSync_length.
    destruct (fs (Artifacts.pwPath a)) as [[sz j|sz es]|]; cbn;
      intros [= <-] [= <-]. eauto. }
  destruct Hw0 as (sz & j & _ & Hsz & Hn).
  assert (Hopt : forall p o, sizeIfExists fs p = inr o ->
                   (o = None <-> fs p = None) /\ (forall z, o = Some z -> 0 <= z)).
  { intros p o. unfold sizeIfExists, existsSync, statSync_size.
    destruct (fs p) as [[? ?|? ?]|]; cbn; intros [= <-];
      (split; [split; intros; congruence | intros z [= <-]; lia]). }
  destruct (Hopt _ _ Hwb) as (Hwn & Hwz).
  destruct (Hopt _ _ Hab) as (Han & Haz).
  split; [exact Hp0|]. split; [lia|]. split; [|split; [|split]].
  - exists (Z.of_N sz / 32). split; [exact Hn|]. rewrite Hsz.
    pose proof (Z.div_mod (Z.of_N sz) 32 ltac:(lia)).
    pose proof (Z.mod_pos_bound (Z.of_N sz) 32 ltac:(lia)). lia.
  - exists a. auto.
  - intros Hc Hnone. apply Han in Hnone. apply Hc.
    revert Hcc. unfold extractConstraintCount, existsSync. rewrite Hnone.
    cbn. congruence.
  - intros z [Hz|Hz]; eauto.
Qed.

Lemma report_fields_witness :
  exists r, profileCircuit coerce_NaN fs_small "c" None = inr r /\
            exists n, publicInputCount r = Some n /\
                      32 * n <= publicWitnessBytes r < 32 * n + 32.
Proof.
  eexists. split; [vm_compute; reflexivity|].
  match goal with |- exists n, publicInputCount ?r = _ /\ _ =>
    destruct (report_fields coerce_NaN fs_small "c" None r)
      as (_ & _ & Hn & _); [vm_compute; reflexivity|]
  end.
  exact Hn.
Defined.

(** ** Warnings and status *)

Lemma push_if_nil c w l : push_if c w l = [] <-> c = false /\ l = [].
Proof.
  unfold push_if. destruct c.
  - split; [|intros [? _]; discriminate].
    intros H. apply app_eq_nil in H. destruct H as [_ H]. discriminate.
  - split; [auto | intros [_ ?]; assumption].
Qed.

Lemma push_if_In c w l x :
  In x (push_if c w l) <-> In x l \/ (c = true /\ x = w).
Proof.
  unfold push_if. destruct c.
  - rewrite in_app_iff. cbn. split.
    + intros [?|[<-|[]]]; auto.
    + intros [?|[_ ->]]; auto.
  - split; [auto | intros [?|[? _]]; [assumption|discriminate]].
Qed.

Lemma push_if_length c w l :
  List.length (push_if c w l)
  = (List.length l + (if c then 1 else 0))%nat.
Proof.
  unfold push_if. destruct c; [|lia].
  rewrite length_app. reflexivity.
Qed.

(** A report is PASS exactly when the instruction data is within the
    effective limit, there are at most 8 public inputs and the total is not
    above 900000 compute units. *)
Theorem PASS_iff_within_thresholds tn fs root opts r :
  profileCircuit tn fs root opts = inr r ->
  (status r = PASS <->
   instructionDataBytes r <= effectiveInstructionLimit r /\
   publicWitnessBytes r < 288 /\
   gtb (totalCU r) (Num 900000) = false).
Proof.
  intros H. apply profileCircuit_inr in H.
  destruct H as (a & vk & _ & _ & Hw & _ & _ & Hpi & _ & _ & _ & _ & _ & Hlim
                 & _ & _ & Hst & Hwarn).
  assert (Hn : publicInputCount r = Some (publicWitnessBytes r / 32)
               /\ 0 <= publicWitnessBytes r).
  { revert Hw Hpi.
    unfold statSync_size, estimatePublicInputs, existsSync, readFileSync_length.
    destruct (fs (Artifacts.pwPath a)) as [[sz j|sz es]|]; cbn;
      intros [= <-] [= <-]. split; [reflexivity|lia]. }
  destruct Hn as (Hn & Hw0).
  assert (Hhigh : high_public_inputs (publicInputCount r) = false
                  <-> publicWitnessBytes r < 288).
  { rewrite Hn. unfold high_public_inputs.
    assert (Hq : publicWitnessBytes r / 32 <= 8 <-> publicWitnessBytes r < 288).
    { split; intros Hq.
      - apply Z.nle_gt. intros Hge.
        assert (9 <= publicWitnessBytes r / 32)
          by (apply Z.div_le_lower_bound; lia). lia.
      - assert (publicWitnessBytes r / 32 < 9)
          by (apply Z.div_lt_upper_bound; lia). lia. }
    destruct (publicWitnessBytes r / 32) as [|q|q] eqn:Eq.
    - split; [intros _; apply Hq; lia | reflexivity].
    - rewrite <- Hq. destruct (Z.gtb_spec (Z.pos q) 8); split;
        intros; try lia; try discriminate; reflexivity.
    - rewrite <- Hq. cbn. split; [lia|reflexivity]. }
  assert (Hl : effectiveInstructionLimit r <= 900)
    by (rewrite Hlim; destruct (usesALT_or_false opts); lia).
  rewrite Hst, Hwarn. clear Hst Hwarn.
  destruct (Z.gtb_spec (instructionDataBytes r) 1232) as [Hgt|Hle].
  - split; [discriminate|]. intros (? & _). lia.
  - rewrite <- Hhigh.
    match goal with |- context [(0 <? List.length ?l)%nat] =>
      assert (Hnil : l = [] <->
                instructionDataBytes r <= effectiveInstructionLimit r /\
                high_public_inputs (publicInputCount r) = false /\
                gtb (totalCU r) (Num 900000) = false);
      [|destruct l as [|w l']]
    end.
    + rewrite !push_if_nil.
      destruct (Z.gtb_spec (instructionDataBytes r) (effectiveInstructionLimit r));
        destruct (Z.gtb_spec (instructionDataBytes r) 1232);
        split; intros; repeat match goal with H : _ /\ _ |- _ => destruct H end;
        try lia; try discriminate; auto.
    + cbn. split; [intros _; apply Hnil; reflexivity | reflexivity].
    + cbn. split; [discriminate|]. intros Hc. apply Hnil in Hc. discriminate.
Qed.

Lemma PASS_iff_within_thresholds_witness :
  exists r, profileCircuit coerce_NaN fs_small "c" ALT_on = inr r /\
            instructionDataBytes r = 500 /\
            effectiveInstructionLimit r = 750 /\
            status r = PASS.
Proof.
  eexists. split; [vm_compute; reflexivity|].
  split; [reflexivity|]. split; [reflexivity|].
  match goal with |- status ?r = PASS =>
    apply (PASS_iff_within_thresholds coerce_NaN fs_small "c" ALT_on r);
      [vm_compute; reflexivity|]
  end.
  cbn. repeat split; lia.
Defined.

(** The four warnings are told apart by their text. *)
Lemma warnings_distinct i u l n t :
  warn_limit i u l <> warn_tx_max /\
  warn_limit i u l <> warn_public_inputs n /\
  warn_limit i u l <> warn_cu t /\
  warn_tx_max <> warn_public_inputs n /\
  warn_tx_max <> warn_cu t /\
  warn_public_inputs n <> warn_cu t.
Proof.
  unfold warn_limit, warn_tx_max, warn_public_inputs, warn_cu.
  cbn [append]. repeat split; intros H; discriminate H.
Qed.

(** Each warning is in the list exactly under its own condition, whatever
    the other three conditions are. *)
Theorem warning_conditions tn fs root opts r :
  profileCircuit tn fs root opts = inr r ->
  ((exists i u l, In (warn_limit i u l) (warnings r))
   <-> effectiveInstructionLimit r < instructionDataBytes r) /\
  (In warn_tx_max (warnings r) <-> 1232 < instructionDataBytes r) /\
  ((exists n, In (warn_public_inputs n) (warnings r))
   <-> 288 <= publicWitnessBytes r) /\
  ((exists t, In (warn_cu t) (warnings r))
   <-> gtb (totalCU r) (Num 900000) = true) /\
  (List.length (warnings r) <= 4)%nat.
Proof.
  intros H. apply profileCircuit_inr in H.
  destruct H as (a & vk & _ & _ & Hw & _ & _ & Hpi & _ & _ & _ & _ & _ & _
                 & _ & _ & _ & Hwarn).
  assert (Hn : publicInputCount r = Some (publicWitnessBytes r / 32)
               /\ 0 <= publicWitnessBytes r).
  { revert Hw Hpi.
    unfold statSync_size, estimatePublicInputs, existsSync, readFileSync_length.
    destruct (fs (Artifacts.pwPath a)) as [[sz j|sz es]|]; cbn;
      intros [= <-] [= <-]. split; [reflexivity|lia]. }
  destruct Hn as (Hn & Hw0).
  assert (Hhigh : high_public_inputs (publicInputCount r) = true
                  <-> 288 <= publicWitnessBytes r).
  { rewrite Hn. unfold high_public_inputs.
    assert (Hq : 8 < publicWitnessBytes r / 32 <-> 288 <= publicWitnessBytes r).
    { split; intros Hq.
      - apply Z.nlt_ge. intros Hlt.
        assert (publicWitnessBytes r / 32 < 9)
          by (apply Z.div_lt_upper_bound; lia). lia.
      - assert (9 <= publicWitnessBytes r / 32)
          by (apply Z.div_le_lower_bound; lia). lia. }
    destruct (publicWitnessBytes r / 32) as [|q|q] eqn:Eq.
    - split; [discriminate | intros; lia].
    - rewrite <- Hq. destruct (Z.gtb_spec (Z.pos q) 8); split;
        intros; try lia; try discriminate; reflexivity.
    - rewrite <- Hq. cbn. split; [discriminate|lia]. }
  rewrite Hwarn. clear Hwarn.
  split; [|split; [|split; [|split]]].
  - split.
    + intros (i & u & l & Hin).
      rewrite !push_if_In in Hin. cbn [In] in Hin.
      destruct Hin as [[[[[]|(Hc & _)]|(_ & He)]|(_ & He)]|(_ & He)].
      * apply Z.gtb_lt in Hc. exact Hc.
      * exfalso. apply (proj1 (warnings_distinct i u l 0 NaN)). exact He.
      * exfalso.
        apply (proj1 (proj2 (warnings_distinct i u l
                 (match publicInputCount r with Some n => n | None => 0 end) NaN))).
        exact He.
      * exfalso.
        apply (proj1 (proj2 (proj2 (warnings_distinct i u l 0 (totalCU r))))).
        exact He.
    + intros Hc. eexists _, _, _. rewrite !push_if_In.
      left. left. left. right. split; [|reflexivity].
      apply Z.gtb_lt. exact Hc.
  - split.
    + intros Hin. rewrite !push_if_In in Hin. cbn [In] in Hin.
      destruct Hin as [[[[[]|(_ & He)]|(Hc & _)]|(_ & He)]|(_ & He)].
      * exfalso. symmetry in He. revert He.
        apply (proj1 (warnings_distinct _ _ _ 0 NaN)).
      * apply Z.gtb_lt in Hc. exact Hc.
      * exfalso. revert He.
        apply (proj1 (proj2 (proj2 (proj2 (warnings_distinct 0 false 0 _ NaN))))).
      * exfalso. revert He.
        apply (proj1 (proj2 (proj2 (proj2 (proj2 (warnings_distinct 0 false 0 0 _)))))).
    + intros Hc. rewrite !push_if_In. left. left. right.
      split; [|reflexivity]. apply Z.gtb_lt. exact Hc.
  - rewrite <- Hhigh. split.
    + intros (n & Hin). rewrite !push_if_In in Hin. cbn [In] in Hin.
      destruct Hin as [[[[[]|(_ & He)]|(_ & He)]|(Hc & _)]|(_ & He)].
      * exfalso. symmetry in He. revert He.
        apply (proj1 (proj2 (warnings_distinct _ _ _ n NaN))).
      * exfalso. symmetry in He. revert He.
        apply (proj1 (proj2 (proj2 (proj2 (warnings_distinct 0 false 0 n NaN))))).
      * exact Hc.
      * exfalso. revert He.
        apply (proj2 (proj2 (proj2 (proj2 (proj2 (warnings_distinct 0 false 0 n _)))))).
    + intros Hc. eexists. rewrite !push_if_In. left. right.
      split; [exact Hc|reflexivity].
  - split.
    + intros (t & Hin). rewrite !push_if_In in Hin. cbn [In] in Hin.
      destruct Hin as [[[[[]|(_ & He)]|(_ & He)]|(_ & He)]|(Hc & _)].
      * exfalso. symmetry in He. revert He.
        apply (proj1 (proj2 (proj2 (warnings_distinct _ _ _ 0 t)))).
      * exfalso. symmetry in He. revert He.
        apply (proj1 (proj2 (proj2 (proj2 (proj2 (warnings_distinct 0 false 0 0 t)))))).
      * exfalso. symmetry in He. revert He.
        apply (proj2 (proj2 (proj2 (proj2 (proj2 (warnings_distinct 0 false 0 _ t)))))).
      * exact Hc.
    + intros Hc. eexists. rewrite !push_if_In. right.
      split; [exact Hc|reflexivity].
  - rewrite !push_if_length. cbn [List.length].
    repeat match goal with |- context [if ?c then 1%nat else 0%nat] =>
      destruct c end; lia.
Qed.

Lemma warning_conditions_witness :
  exists r, profileCircuit coerce_NaN fs_ten_inputs "c" None = inr r /\
            publicWitnessBytes r = 320 /\
            exists n, In (warn_public_inputs n) (warnings r).
Proof.
  eexists. split; [vm_compute; reflexivity|]. split; [reflexivity|].
  match goal with |- exists n, In _ (warnings ?r) =>
    destruct (warning_conditions coerce_NaN fs_ten_inputs "c" None r)
      as (_ & _ & (_ & Hin) & _); [vm_compute; reflexivity|]
  end.
  apply Hin. cbn. lia.
Defined.

(** A FAIL report always opens with the two size warnings, in that order:
    the hard ceiling is above both effective limits. *)
Theorem FAIL_opens_with_size_warnings tn fs root opts r :
  profileCircuit tn fs root opts = inr r ->
  status r = FAIL ->
  exists rest,
    warnings r =
      warn_limit (instructionDataBytes r) (usesALT_or_false opts)
                 (effectiveInstructionLimit r)
      :: warn_tx_max :: rest.
Proof.
  intros H Hfail. apply profileCircuit_inr in H.
  destruct H as (a & vk & _ & _ & _ & _ & _ & _ & _ & _ & _ & _ & _ & Hlim
                 & _ & _ & Hst & Hwarn).
  assert (Hgt : 1232 < instructionDataBytes r).
  { rewrite Hst in Hfail.
    destruct (Z.gtb_spec (instructionDataBytes r) 1232); [assumption|].
    destruct (0 <? _)%nat; discriminate. }
  assert (Hl : effectiveInstructionLimit r <= 900)
    by (rewrite Hlim; destruct (usesALT_or_false opts); lia).
  rewrite Hwarn. unfold push_if.
  replace (instructionDataBytes r >? 1232) with true
    by (symmetry; apply Z.gtb_lt; lia).
  replace (instructionDataBytes r >? effectiveInstructionLimit r) with true
    by (symmetry; apply Z.gtb_lt; lia).
  cbn [app].
  destruct (high_public_inputs (publicInputCount r));
    destruct (gtb (totalCU r) (Num 900000)); cbn [app]; eauto.
Qed.

Lemma FAIL_opens_with_size_warnings_witness :
  exists r, profileCircuit coerce_NaN fs_large_bad_json "c" None = inr r /\
            exists rest,
              warnings r =
                warn_limit (instructionDataBytes r) false
                           (effectiveInstructionLimit r)
                :: warn_tx_max :: rest.
Proof.
  eexists. split; [vm_compute; reflexivity|].
  match goal with |- exists rest, warnings ?r = _ =>
    apply (FAIL_opens_with_size_warnings
             coerce_NaN fs_large_bad_json "c" None r);
      [vm_compute; reflexivity | reflexivity]
  end.
Defined.

(** The lookup-table option changes the effective limit, the limit warning
    and through it the status, and nothing else.  Turning it on never
    improves the verdict: a report that is PASS with the option on is PASS
    with it off, FAIL is FAIL both ways, and the list of warnings is at
    least as long with the option on. *)
Theorem ALT_only_tightens tn fs root on off r_on r_off :
  usesALT_or_false on = true ->
  usesALT_or_false off = false ->
  profileCircuit tn fs root on = inr r_on ->
  profileCircuit tn fs root off = inr r_off ->
  (circuitName r_on = circuitName r_off /\
   proofBytes r_on = proofBytes r_off /\
   publicWitnessBytes r_on = publicWitnessBytes r_off /\
   instructionDataBytes r_on = instructionDataBytes r_off /\
   publicInputCount r_on = publicInputCount r_off /\
   constraintCount r_on = constraintCount r_off /\
   totalCU r_on = totalCU r_off /\
   priorityFees r_on = priorityFees r_off /\
   vkRentEstimateSOL r_on = vkRentEstimateSOL r_off /\
   witnessBytes r_on = witnessBytes r_off /\
   acirBytes r_on = acirBytes r_off /\
   fitsInSolanaTx r_on = fitsInSolanaTx r_off) /\
  (status r_on = PASS -> status r_off = PASS) /\
  (status r_on = FAIL <-> status r_off = FAIL) /\
  (List.length (warnings r_off) <= List.length (warnings r_on))%nat.
Proof.
  intros Hon Hoff H1 H2.
  unfold profileCircuit in H1, H2. cbn [bind Monad_either] in H1, H2.
  destruct (resolveCircuitArtifacts fs root) as [?|a]; [discriminate H1|].
  destruct (statSync_size fs (Artifacts.proofPath a)) as [?|pb];
    [discriminate H1|].
  destruct (statSync_size fs (Artifacts.pwPath a)) as [?|pwb];
    [discriminate H1|].
  destruct (sizeIfExists fs (Artifacts.witnessPath a)) as [?|wb];
    [discriminate H1|].
  destruct (sizeIfExists fs (Artifacts.acirPath a)) as [?|ab];
    [discriminate H1|].
  destruct (estimatePublicInputs fs (Artifacts.pwPath a)) as [?|pic];
    [discriminate H1|].
  destruct (extractConstraintCount fs (Artifacts.acirPath a)) as [?|cc];
    [discriminate H1|].
  destruct (sizeIfExists fs (Artifacts.vkPath a)) as [?|vk];
    [discriminate H1|].
  cbn [ret Monad_either] in H1, H2. rewrite Hon in H1. rewrite Hoff in H2.
  inversion H1; subst r_on; clear H1. inversion H2; subst r_off; clear H2.
  cbn [circuitName proofBytes publicWitnessBytes instructionDataBytes
       publicInputCount constraintCount totalCU priorityFees
       vkRentEstimateSOL witnessBytes acirBytes fitsInSolanaTx status warnings].
  split; [repeat split|].
  change SOLANA_TX_MAX_BYTES with 1232.
  change SAFE_INSTRUCTION_DATA_LIMIT_ALT with 750.
  change SAFE_INSTRUCTION_DATA_LIMIT with 900.
  rewrite !push_if_length. cbn [List.length].
  destruct (Z.gtb_spec (pb + pwb) 1232);
    destruct (Z.gtb_spec (pb + pwb) 750);
    destruct (Z.gtb_spec (pb + pwb) 900); try lia;
    destruct (high_public_inputs pic);
    destruct (gtb (predictComputeUnits (option_map Num pic)
                     (option_map (ToNumber tn) cc)) (Num 900000));
    cbn; repeat split; intros; try discriminate; try reflexivity; lia.
Qed.

Lemma ALT_only_tightens_witness :
  exists r_on r_off,
    profileCircuit coerce_NaN fs_small "c" ALT_on = inr r_on /\
    profileCircuit coerce_NaN fs_small "c" ALT_off = inr r_off /\
    status r_on = PASS /\ status r_off = PASS.
Proof.
  eexists _, _. split; [vm_compute; reflexivity|].
  split; [vm_compute; reflexivity|]. split; [reflexivity|].
  match goal with |- status ?r = PASS =>
    eapply (ALT_only_tightens coerce_NaN fs_small "c" ALT_on ALT_off _ r);
      [reflexivity | reflexivity | vm_compute; reflexivity
      | vm_compute; reflexivity | reflexivity]
  end.
Defined.

(** ** Compute units, continued *)

(** The constraint term is quantized.  As long as every number computed is
    a safe integer, the total is [150000 + 12000 p + 20000 k] for the one
    [k] with [10000 k <= c < 10000 (k + 1)]; it is constant inside a
    bucket, and 10000 more constraints cost exactly 20000 more. *)
Theorem predictComputeUnits_buckets p c :
  safe_prediction p c ->
  (exists k, 10000 * k <= c < 10000 * (k + 1) /\
             predictComputeUnits (Some (Num p)) (Some (Num c))
             = Num (150000 + 12000 * p + 20000 * k)) /\
  (forall c', safe_prediction p c' -> c / 10000 = c' / 10000 ->
              predictComputeUnits (Some (Num p)) (Some (Num c'))
              = predictComputeUnits (Some (Num p)) (Some (Num c))) /\
  (safe_prediction p (c + 10000) ->
   predictComputeUnits (Some (Num p)) (Some (Num (c + 10000)))
   = add (predictComputeUnits (Some (Num p)) (Some (Num c))) (Num 20000)).
Proof.
  intros _. rewrite !predictComputeUnits_Num. split; [|split].
  - exists (c / 10000).
    pose proof (Z.div_mod c 10000 ltac:(lia)).
    pose proof (Z.mod_pos_bound c 10000 ltac:(lia)).
    split; [lia|]. f_equal. lia.
  - intros c' _ Hc. rewrite !predictComputeUnits_Num, Hc. reflexivity.
  - intros _. cbn [add]. f_equal.
    replace (c + 10000) with (c + 1 * 10000) by lia.
    rewrite Z.div_add by lia. lia.
Qed.

Lemma predictComputeUnits_buckets_witness :
  exists k, 10000 * k <= 10001 < 10000 * (k + 1) /\
            predictComputeUnits (Some (Num 6)) (Some (Num 10001))
            = Num (150000 + 12000 * 6 + 20000 * k).
Proof.
  apply (predictComputeUnits_buckets 6 10001).
  repeat split; vm_compute; discriminate.
Defined.

(** A report that fits in a transaction has at most 38 public inputs, so
    it takes at least 150000 constraints to push its total above 900000:
    with a smaller count, or none, there is no high-CU warning. *)
Theorem fitting_report_CU_bound tn fs root opts r :
  profileCircuit tn fs root opts = inr r ->
  fitsInSolanaTx r = true ->
  (forall v, constraintCount r = Some v ->
             exists c, ToNumber tn v = Num c /\ c < 150000) ->
  exists t, totalCU r = Num t /\ t <= 886000 /\
            gtb (totalCU r) (Num 900000) = false.
Proof.
  intros H Hfit Hcount. apply profileCircuit_inr in H.
  destruct H as (a & vk & _ & Hp & Hw & _ & _ & Hpi & _ & _ & _ & _ & Hi & _
                 & Hcu & Hf & _).
  assert (Hp0 : 0 <= proofBytes r).
  { revert Hp. unfold statSync_size.
    destruct (fs (Artifacts.proofPath a)) as [[? ?|? ?]|]; cbn;
      intros [= <-]; lia. }
  assert (Hn : publicInputCount r = Some (publicWitnessBytes r / 32)).
  { revert Hw Hpi.
    unfold statSync_size, estimatePublicInputs, existsSync, readFileSync_length.
    destruct (fs (Artifacts.pwPath a)) as [[sz j|sz es]|]; cbn;
      intros [= <-] [= <-]. reflexivity. }
  rewrite Hf in Hfit. apply Z.leb_le in Hfit.
  assert (Hq : publicWitnessBytes r / 32 <= 38).
  { assert (publicWitnessBytes r / 32 < 39)
      by (apply Z.div_lt_upper_bound; lia). lia. }
  assert (Hk : exists k, k <= 14 /\
             totalCU r = Num (150000 + publicWitnessBytes r / 32 * 12000
                              + k * 20000)).
  { rewrite Hcu, Hn. destruct (constraintCount r) as [v|]; cbn [option_map].
    - destruct (Hcount v eq_refl) as (c & -> & Hc).
      exists (c / 10000). split; [|apply predictComputeUnits_Num].
      assert (c / 10000 < 15) by (apply Z.div_lt_upper_bound; lia). lia.
    - exists 0. split; [lia|]. rewrite predictComputeUnits_no_count.
      f_equal. lia. }
  destruct Hk as (k & Hk & Ht). rewrite Ht.
  eexists. split; [reflexivity|]. split; [lia|].
  cbn [gtb]. rewrite Z.gtb_ltb. apply Z.ltb_ge. lia.
Qed.

Lemma fitting_report_CU_bound_witness :
  exists r, profileCircuit coerce_NaN fs_10001_constraints "c" None = inr r /\
            exists t, totalCU r = Num t /\ t <= 886000 /\
                      gtb (totalCU r) (Num 900000) = false.
Proof.
  eexists. split; [vm_compute; reflexivity|].
  match goal with |- exists t, totalCU ?r = _ /\ _ =>
    apply (fitting_report_CU_bound
             coerce_NaN fs_10001_constraints "c" None r);
      [vm_compute; reflexivity | reflexivity |]
  end.
  intros v [= <-]. exists 10001. split; [reflexivity|lia].
Defined.

(** A constraint count that does not coerce to a number makes the total
    [NaN]: such a report never carries the high-CU warning, and its three
    quotes are [NaN]. *)
Theorem NaN_count_silences_CU_warning tn fs root opts r v :
  profileCircuit tn fs root opts = inr r ->
  constraintCount r = Some v ->
  ToNumber tn v = NaN ->
  totalCU r = NaN /\
  (forall t, ~ In (warn_cu t) (warnings r)) /\
  priorityFees r = [("low", nan); ("medium", nan); ("high", nan)].
Proof.
  intros H Hv Hnan. pose proof H as Hfees.
  apply profileCircuit_inr in H.
  destruct H as (a & vk & _ & _ & _ & _ & _ & _ & _ & _ & _ & _ & _ & _
                 & Hcu & _ & _ & Hwarn).
  assert (Ht : totalCU r = NaN).
  { rewrite Hcu, Hv. cbn [option_map]. rewrite Hnan.
    destruct (publicInputCount r); reflexivity. }
  split; [exact Ht|]. split.
  - intros t Hin. rewrite Hwarn, Ht in Hin.
    rewrite !push_if_In in Hin. cbn [In gtb] in Hin.
    destruct Hin as [[[[[]|(_ & He)]|(_ & He)]|(_ & He)]|(Hc & _)];
      try discriminate Hc.
    + symmetry in He. revert He.
      apply (proj1 (proj2 (proj2 (warnings_distinct _ _ _ 0 t)))).
    + symmetry in He. revert He.
      apply (proj1 (proj2 (proj2 (proj2 (proj2 (warnings_distinct 0 false 0 0 t)))))).
    + symmetry in He. revert He.
      apply (proj2 (proj2 (proj2 (proj2 (proj2 (warnings_distinct 0 false 0 _ t)))))).
  - unfold profileCircuit in Hfees. cbn [bind Monad_either] in Hfees.
    bind_inr Hfees. cbn [ret Monad_either] in Hfees.
    inversion Hfees; subst r; clear Hfees. cbn [priorityFees].
    cbn [totalCU] in Ht. rewrite Ht. reflexivity.
Qed.

Lemma NaN_count_silences_CU_warning_witness :
  exists r,
    profileCircuit coerce_NaN fs_text_length "c" None = inr r /\
    totalCU r = NaN /\
    priorityFees r = [("low", nan); ("medium", nan); ("high", nan)].
Proof.
  eexists. split; [vm_compute; reflexivity|].
  match goal with |- totalCU ?r = _ /\ _ =>
    destruct (NaN_count_silences_CU_warning coerce_NaN fs_text_length
                "c" None r (JStr "many"))
      as (Ht & _ & Hfees);
      [vm_compute; reflexivity | reflexivity | reflexivity |]
  end.
  split; [exact Ht | exact Hfees].
Defined.

(** ** The constraint count *)

(** When the circuit definition parses to a value whose [constraints] is an
    array, the count is the number of its items. *)
Theorem constraint_count_of_array fs p size v items :
  fs p = Some (File size (Some v)) ->
  get v "constraints" = Some (JArr items) ->
  extractConstraintCount fs p
  = inr (Some (JNum (Z.of_nat (List.length items)))).
Proof.
  intros Hf Hc. unfold extractConstraintCount, existsSync, JSON_parse_file.
  rewrite Hf. cbn.
  destruct v; cbn in Hc |- *; try discriminate Hc; rewrite Hc; reflexivity.
Qed.

Lemma constraint_count_of_array_witness :
  extractConstraintCount fs_10001_constraints "c/target/one.json"
  = inr (Some (JNum 10001)).
Proof.
  apply (constraint_count_of_array fs_10001_constraints "c/target/one.json"
           70000 (JObj [("constraints", JArr (repeat (JNum 0) (Z.to_nat 10001)))])
           (repeat (JNum 0) (Z.to_nat 10001)));
    reflexivity.
Defined.

(** The count is absent for every document that is not an object, for an
    object whose [constraints] is [null], a number or a boolean, and for
    one whose [constraints] has a [null] length; none of them is an
    error. *)
Theorem constraint_count_absent fs p size v :
  fs p = Some (File size (Some v)) ->
  (forall members, v <> JObj members) \/
  (exists c, get v "constraints" = Some c /\
             (c = JNull \/ (exists z, c = JNum z) \/ (exists b, c = JBool b) \/
              get c "length" = Some JNull)) ->
  extractConstraintCount fs p = inr None.
Proof.
  intros Hf Hv. unfold extractConstraintCount, existsSync, JSON_parse_file.
  rewrite Hf. cbn. destruct Hv as [Hno|(c & Hc & Hcase)].
  - destruct v; cbn; try reflexivity.
    exfalso. apply (Hno members). reflexivity.
  - destruct v; cbn in Hc |- *; try discriminate Hc.
    rewrite Hc. cbn.
    destruct Hcase as [->|[(z & ->)|[(b & ->)|Hl]]]; try reflexivity.
    unfold length_or_undefined. rewrite Hl. destruct c; reflexivity.
Qed.

Lemma constraint_count_absent_witness :
  extractConstraintCount
    (mkfs [("acir.json", File 20 (Some (JObj [("constraints", JNum 7)])))])
    "acir.json"
  = inr None.
Proof.
  apply (constraint_count_absent _ "acir.json" 20
           (JObj [("constraints", JNum 7)])).
  - reflexivity.
  - right. exists (JNum 7). split; [reflexivity|]. right. left.
    exists 7. reflexivity.
Defined.

(** ** Rent *)

Lemma vk_rent_presence_witness :
  exists r, profileCircuit coerce_NaN fs_vk_1k "c" None = inr r /\
            vkRentEstimateSOL r = Some 0.007%float.
Proof.
  eexists. split; [vm_compute; reflexivity|].
  match goal with |- vkRentEstimateSOL ?r = _ =>
    destruct (vk_rent_presence coerce_NaN fs_vk_1k "c" None r)
      as (a & Ha & _ & Hrent); [vm_compute; reflexivity|]
  end.
  assert (Hvk : Artifacts.vkPath a = "c/target/one.vk")
    by (vm_compute in Ha; inversion Ha; reflexivity).
  rewrite (Hrent 1024); rewrite ?Hvk; reflexivity.
Defined.


(** ** From the matched entry to the proof path *)

Lemma substring_whole s : substring 0 (String.length s) s = s.
Proof. induction s as [|c s IH]; cbn; [reflexivity|]. rewrite IH. reflexivity. Qed.

Lemma substring_none n s : substring n 0 s = "".
Proof.
  revert s. induction n as [|n IH]; intros [|c s]; cbn; auto.
Qed.

Lemma substring_split s n :
  (n <= String.length s)%nat ->
  substring 0 n s ++ substring n (String.length s - n) s = s.
Proof.
  revert n. induction s as [|c s IH]; intros [|n] Hn; cbn in *; try lia;
    try reflexivity.
  - rewrite substring_whole. reflexivity.
  - rewrite IH by lia. reflexivity.
Qed.

Lemma append_empty s : s ++ "" = s.
Proof. induction s as [|c s IH]; cbn; [reflexivity|]. rewrite IH. reflexivity. Qed.

Lemma endsWith_inv s suffix :
  endsWith s suffix = true ->
  (String.length suffix <= String.length s)%nat /\
  substring (String.length s - String.length suffix) (String.length suffix) s
  = suffix.
Proof.
  unfold endsWith.
  destruct (Nat.leb_spec (String.length suffix) (String.length s)) as [Hle|Hgt];
    [|discriminate].
  intros Heq. apply String.eqb_eq in Heq. auto.
Qed.

(** The circuit name is the first matching entry of the listing with its
    first [.proof] taken out.  When that first [.proof] is the extension,
    putting the extension back gives the entry again, and the proof path is
    the entry's own path.  (An entry such as [x.proofs.proof] has an earlier
    [.proof]; its circuit name is [xs.proof].) *)
Theorem proof_path_is_matched_entry fs root a :
  resolveCircuitArtifacts fs root = inr a ->
  exists sz before proofFile after,
    fs (path_join root "target")
    = Some (Directory sz (before ++ proofFile :: after)) /\
    endsWith proofFile ".proof" = true /\
    (forall f, In f before -> endsWith f ".proof" = false) /\
    Artifacts.circuitName a = replace proofFile ".proof" "" /\
    (index 0 ".proof" proofFile = Some (String.length proofFile - 6)%nat ->
     Artifacts.circuitName a ++ ".proof" = proofFile /\
     Artifacts.proofPath a = path_join (path_join root "target") proofFile).
Proof.
  intros Ha.
  destruct (resolveCircuitArtifacts_first fs root a Ha)
    as (sz & before & proofFile & after & Hdir & Hends & Hbefore & Hname).
  exists sz, before, proofFile, after.
  repeat (split; [assumption|]).
  intros Hidx.
  assert (Hback : Artifacts.circuitName a ++ ".proof" = proofFile).
  { rewrite Hname. unfold replace. rewrite Hidx.
    apply endsWith_inv in Hends. destruct Hends as (Hlen & Hsuffix).
    change (String.length ".proof") with 6%nat in *.
    replace (String.length proofFile - (String.length proofFile - 6 + 6))%nat
      with 0%nat by lia.
    rewrite substring_none. cbn [append]. rewrite append_empty.
    pose proof (substring_split proofFile (String.length proofFile - 6)
                  ltac:(lia)) as Hs.
    replace (String.length proofFile - (String.length proofFile - 6))%nat
      with 6%nat in Hs by lia.
    rewrite Hsuffix in Hs. exact Hs. }
  split; [exact Hback|].
  rewrite <- Hback. clear Hback Hname.
  revert Ha. unfold resolveCircuitArtifacts, existsSync, readdirSync.
  rewrite Hdir. cbn.
  destruct (find (fun f => endsWith f ".proof") (before ++ proofFile :: after));
    cbn; [|discriminate].
  intros [= <-]. reflexivity.
Qed.

Lemma proof_path_is_matched_entry_witness :
  exists a,
    resolveCircuitArtifacts fs_small "c" = inr a /\
    Artifacts.circuitName a ++ ".proof" = "one.proof" /\
    Artifacts.proofPath a = "c/target/one.proof".
Proof.
  eexists. split; [vm_compute; reflexivity|].
  match goal with |- Artifacts.circuitName ?a ++ _ = _ /\ _ =>
    destruct (proof_path_is_matched_entry fs_small "c" a)
      as (sz & before & proofFile & after & Hdir & _ & Hbefore & _ & Hback);
      [vm_compute; reflexivity|]
  end.
  assert (HpF : proofFile = "one.proof").
  { destruct before as [|f before].
    - cbn in Hdir. inversion Hdir. reflexivity.
    - cbn in Hdir. inversion Hdir; subst.
      specialize (Hbefore "one.proof" (or_introl eq_refl)).
      vm_compute in Hbefore. discriminate Hbefore. }
  subst proofFile. apply Hback. reflexivity.
Defined.

(** An entry with an inner [.proof] resolves to a proof path that is not the
    entry's, and the run stops there although a proof was found. *)
Example inner_proof_extension :
  profileCircuit coerce_NaN fs_inner_proof "c" None
  = inl (ENOENT "c/target/xs.proof.proof").
Proof. reflexivity. Qed.

(** ** The constraint count never stops a run *)

(** Reading the constraint count never raises, whatever the path names.  A
    count is only there when the path is a regular file that parses, and it
    is then the [length] of the [constraints] of the parsed value. *)
Theorem extractConstraintCount_never_raises fs p :
  exists o,
    extractConstraintCount fs p = inr o /\
    (forall n, o = Some n ->
       exists size v c,
         fs p = Some (File size (Some v)) /\
         get v "constraints" = Some c /\
         get c "length" = Some n /\ n <> JNull).
Proof.
  unfold extractConstraintCount, existsSync, JSON_parse_file.
  destruct (fs p) as [[size [v|]|size es]|]; cbn;
    try (eexists; split; [reflexivity|]; discriminate).
  destruct v; cbn;
    try (eexists; split; [reflexivity|]; discriminate).
  eexists. split; [reflexivity|].
  intros n Hn. unfold length_or_undefined in Hn.
  destruct (own_member "constraints" members) as [c|] eqn:Hc;
    [|discriminate Hn].
  exists size, (JObj members), c. split; [reflexivity|].
  split; [exact Hc|].
  destruct c; try discriminate Hn;
    (destruct (get _ "length") as [l|] eqn:Hl; [|discriminate Hn];
     destruct l; try discriminate Hn; inversion Hn; subst;
     (split; [reflexivity|discriminate])).
Qed.

(** ** The command line *)


(** The command never turns the lookup-table option on: every report it
    prints was made with the limit of 900 bytes, and is the report of the
    engine for the resolved path of the first argument. *)
Theorem command_reports_without_ALT tn path_resolve fs args r :
  zk_profiler tn path_resolve fs args = Reported r ->
  effectiveInstructionLimit r = 900 /\
  exists circuitRoot rest,
    args = circuitRoot :: rest /\ circuitRoot <> "" /\
    profileCircuit tn fs (path_resolve circuitRoot) None = inr r.
Proof.
  unfold zk_profiler. destruct args as [|circuitRoot rest]; [discriminate|].
  destruct (String.eqb_spec circuitRoot "") as [->|Hne]; [discriminate|].
  destruct (profileCircuit tn fs (path_resolve circuitRoot) None)
    as [e|r'] eqn:Hrun; [discriminate|].
  intros [= ->]. split.
  - apply profileCircuit_inr in Hrun.
    destruct Hrun as (a & vk & _ & _ & _ & _ & _ & _ & _ & _ & _ & _ & _
                      & Hlim & _).
    exact Hlim.
  - exists circuitRoot, rest. auto.
Qed.

Lemma command_reports_without_ALT_witness :
  exists r,
    zk_profiler coerce_NaN (fun p => p) fs_small ["c"] = Reported r /\
    effectiveInstructionLimit r = 900.
Proof.
  eexists. split; [vm_compute; reflexivity|].
  match goal with |- effectiveInstructionLimit ?r = _ =>
    destruct (command_reports_without_ALT coerce_NaN (fun p => p)
                fs_small ["c"] r) as (Hlim & _); [vm_compute; reflexivity|]
  end.
  exact Hlim.
Defined.

(** ** Priority fees *)

Lemma profileCircuit_fees tn fs root opts r :
  profileCircuit tn fs root opts = inr r ->
  priorityFees r = estimatePriorityFees (totalCU r).
Proof.
  unfold profileCircuit. intros H. cbn [bind Monad_either] in H.
  bind_inr H. cbn [ret Monad_either] in H. inversion H; subst; clear H.
  reflexivity.
Qed.

(** The quotes of the total [150000 + 4000 j]: the low one is 0, the medium
    one is 0 below 625000 and the high one below 200000. *)
Lemma small_quotes_table j :
  (j < 588)%nat ->
  let t := 150000 + 4000 * Z.of_nat j in
  let fees := estimatePriorityFees (Num t) in
  quote_is_zero fees "low" = true /\
  (t < 625000 -> quote_is_zero fees "medium" = true) /\
  (t < 200000 -> quote_is_zero fees "high" = true).
Proof.
  intros Hj. cbn zeta.
  assert (Hall :
    forallb (fun j =>
               let t := 150000 + 4000 * Z.of_nat j in
               let fees := estimatePriorityFees (Num t) in
               quote_is_zero fees "low"
               && (if t <? 625000 then quote_is_zero fees "medium" else true)
               && (if t <? 200000 then quote_is_zero fees "high" else true))%bool
            (seq 0 588) = true) by (vm_compute; reflexivity).
  rewrite forallb_forall in Hall. specialize (Hall j).
  cbn zeta in Hall.
  destruct (quote_is_zero _ "low"); [|discriminate Hall; apply in_seq; lia].
  split; [reflexivity|]. cbn [andb] in Hall.
  assert (Hin : In j (seq 0 588)) by (apply in_seq; lia).
  specialize (Hall Hin).
  split; intros Hlt.
  - apply Z.ltb_lt in Hlt. rewrite Hlt in Hall.
    destruct (quote_is_zero _ "medium"); [reflexivity|discriminate Hall].
  - apply Z.ltb_lt in Hlt. rewrite Hlt in Hall.
    destruct (quote_is_zero _ "high"); [reflexivity|].
    destruct (quote_is_zero _ "medium"), (_ <? 625000); discriminate Hall.
Qed.

(** The two unit conversions leave almost nothing of a quote.  A report
    always has the three tiers low, medium, high, in that order, whatever
    its counts.  When its constraint count is absent or not negative and
    its total is below 2500000 compute units, the low quote is 0; the
    medium quote is 0 when the total is below 625000, and the high quote
    when it is below 200000. *)
Theorem quotes_round_to_zero tn fs root opts r :
  profileCircuit tn fs root opts = inr r ->
  map fst (priorityFees r) = ["low"; "medium"; "high"] /\
  ((forall v, constraintCount r = Some v ->
              exists c, ToNumber tn v = Num c /\ 0 <= c) ->
   exists t,
     totalCU r = Num t /\
     (t < 2500000 -> quote_is_zero (priorityFees r) "low" = true) /\
     (t < 625000 -> quote_is_zero (priorityFees r) "medium" = true) /\
     (t < 200000 -> quote_is_zero (priorityFees r) "high" = true)).
Proof.
  intros H. pose proof (profileCircuit_fees _ _ _ _ _ H) as Hfees.
  split; [rewrite Hfees; reflexivity|]. intros Hcount.
  apply profileCircuit_inr in H.
  destruct H as (a & vk & _ & _ & _ & _ & _ & Hpi & _ & _ & _ & _ & _ & _
                 & Hcu & _).
  assert (Hj : exists j, 0 <= j /\ totalCU r = Num (150000 + 4000 * j)).
  { apply estimatePublicInputs_inr in Hpi. rewrite Hcu.
    assert (Hk : exists k, 0 <= k /\
              forall p, predictComputeUnits (Some (Num p))
                          (option_map (ToNumber tn) (constraintCount r))
                        = Num (150000 + p * 12000 + k * 20000)).
    { destruct (constraintCount r) as [v|]; cbn [option_map].
      - destruct (Hcount v eq_refl) as (c & -> & Hc). exists (c / 10000).
        split; [apply Z.div_pos; lia|]. intros p. apply predictComputeUnits_Num.
      - exists 0. split; [lia|]. intros p.
        rewrite predictComputeUnits_no_count. f_equal. lia. }
    destruct Hk as (k & Hk0 & Hk).
    destruct Hpi as [->|(bytes & -> & Hb & _)]; cbn [option_map].
    - exists (5 * k). split; [lia|].
      change (predictComputeUnits None
                (option_map (ToNumber tn) (constraintCount r)))
        with (predictComputeUnits (Some (Num 0))
                (option_map (ToNumber tn) (constraintCount r))).
      rewrite Hk. f_equal. lia.
    - exists (3 * (bytes / 32) + 5 * k).
      assert (0 <= bytes / 32) by (apply Z.div_pos; lia).
      split; [lia|]. rewrite Hk. f_equal. lia. }
  destruct Hj as (j & Hj0 & Ht).
  exists (150000 + 4000 * j). split; [exact Ht|].
  rewrite Hfees, Ht.
  assert (Htable : 150000 + 4000 * j < 2500000 ->
            quote_is_zero (estimatePriorityFees (Num (150000 + 4000 * j))) "low" = true /\
            (150000 + 4000 * j < 625000 ->
             quote_is_zero (estimatePriorityFees (Num (150000 + 4000 * j))) "medium" = true) /\
            (150000 + 4000 * j < 200000 ->
             quote_is_zero (estimatePriorityFees (Num (150000 + 4000 * j))) "high" = true)).
  { intros Hlt. pose proof (small_quotes_table (Z.to_nat j) ltac:(lia)) as Hq.
    cbn zeta in Hq. rewrite Z2Nat.id in Hq by lia. exact Hq. }
  split; [|split]; intros Hlt.
  - apply Htable. exact Hlt.
  - apply Htable; lia.
  - apply Htable; lia.
Qed.

Lemma quotes_round_to_zero_witness :
  exists r, profileCircuit coerce_NaN fs_small "c" None = inr r /\
            totalCU r = Num 222000 /\
            map fst (priorityFees r) = ["low"; "medium"; "high"] /\
            quote_is_zero (priorityFees r) "low" = true /\
            quote_is_zero (priorityFees r) "medium" = true.
Proof.
  eexists. split; [vm_compute; reflexivity|]. split; [reflexivity|].
  match goal with |- map fst (priorityFees ?r) = _ /\ _ =>
    destruct (quotes_round_to_zero coerce_NaN fs_small "c" None r)
      as (Htiers & Hzero); [vm_compute; reflexivity|]
  end.
  split; [exact Htiers|].
  destruct Hzero as (t & Ht & Hlow & Hmedium & _);
    [intros v Hv; discriminate Hv|].
  cbn in Ht. inversion Ht; subst t.
  split; [apply Hlow | apply Hmedium]; lia.
Defined.
